(** * Paleohydraulics: flow velocity from gravel dunes and scour marks

    A shallow embedding of [paleohydraulics.py] and the proofs of the
    properties stated about it.

    The program is two numeric functions and a driver that prints four
    formatted lines.  Python floats are IEEE-754 binary64 numbers, and the
    embedding keeps them that way:

    - [Binary64] embeds [calculate_velocity_from_dunes], the dune half of
      the driver and the [f"{x:.2f}"] formatting over [spec_float] with
      [prec = 53] and [emax = 1024].  Division, multiplication, subtraction
      and square root are correctly rounded there, exactly as CPython
      computes them, and every definition evaluates.

    - [Binary64Scour] embeds [calculate_mean_velocity] over the same
      doubles.  [**] and [math.log10] end in the C library, whose last
      bits no standard fixes, so the library is a parameter and every
      general statement about the function holds for all libraries; what
      CPython does around the library calls is modelled from its source.

    - [Exact] reads the whole program over the real numbers.  It serves
      the closed statements about the one run of the driver, whose printed
      digits are far from any rounding boundary; nothing general about
      the two functions is concluded from it.

    In all three a Python exception is an explicit [Raise] outcome.
    [Truncated] is a proof device for one numeric bound. *)

From Stdlib Require Import ZArith Lia Bool List String Ascii.
From Stdlib Require Import DecimalString DecimalN.
From Stdlib Require Import SpecFloat.
From Stdlib Require Import Reals Lra.
Import ListNotations.

(** ** Exceptions and outcomes *)

(** The built-in exceptions the arithmetic of the program can raise. *)
Inductive exn : Set :=
| ValueError          (* math domain error *)
| ZeroDivisionError
| TypeError
| OverflowError.

Inductive result (A : Type) : Type :=
| Ok (a : A)
| Raise (e : exn).

Arguments Ok {A} a.
Arguments Raise {A} e.

Definition bind {A B : Type} (c : result A) (k : A -> result B) : result B :=
  match c with
  | Ok a => k a
  | Raise e => Raise e
  end.

Declare Scope py_scope.
Delimit Scope py_scope with py.
Notation "x <- c ;; k" := (bind c (fun x => k))
  (at level 61, c at next level, right associativity) : py_scope.
Notation "' pat <- c ;; k" := (bind c (fun x => match x with pat => k end))
  (at level 61, pat pattern, c at next level, right associativity) : py_scope.

Definition returns {A : Type} (c : result A) : bool :=
  match c with Ok _ => true | Raise _ => false end.

Definition faults {A : Type} (c : result A) : bool := negb (returns c).

(** What a run of the script leaves behind: the lines written to standard
    output so far, and whether it finished or died of an uncaught
    exception. *)
Record run : Type := {
  stdout : list string;
  status : result unit
}.

(** ** Fixed-point rendering

    [render_fixed neg n p] writes the non-negative integer [n], read as a
    number of units of [10^-p], the way ["%.pf"] does: sign, integer
    digits, a point and exactly [p] digits. *)

Definition digits_of (n : Z) : string :=
  NilZero.string_of_uint (N.to_uint (Z.to_N n)).

Fixpoint zeros (k : nat) : string :=
  match k with
  | O => EmptyString
  | S k' => String "0" (zeros k')
  end.

Definition pad_left (width : nat) (s : string) : string :=
  (zeros (width - String.length s) ++ s)%string.

Definition render_fixed (neg : bool) (n : Z) (p : nat) : string :=
  let scale := (10 ^ Z.of_nat p)%Z in
  let ip := digits_of (n / scale) in
  let fp := pad_left p (digits_of (n mod scale)) in
  ((if neg then "-" else EmptyString) ++ ip ++
   match p with O => EmptyString | S _ => "." ++ fp end)%string.

(** ** Binary64 semantics *)

Module Binary64.

Local Open Scope Z_scope.
Local Open Scope py_scope.

Definition prec : Z := 53.
Definition emax : Z := 1024.

(** A Python float.  Where a statement needs a double to be normal, it
    says so on the mantissa and the exponent. *)
Definition float : Type := spec_float.

Definition fmul : float -> float -> float := SFmul prec emax.
Definition fsub : float -> float -> float := SFsub prec emax.
Definition fdiv : float -> float -> float := SFdiv prec emax.
Definition fsqrt : float -> float := SFsqrt prec emax.
Definition flt : float -> float -> bool := SFltb.
Definition fle : float -> float -> bool := SFleb.
Definition feq : float -> float -> bool := SFeqb.

Definition is_nan (x : float) : bool :=
  match x with S754_nan => true | _ => false end.

Definition is_finite (x : float) : bool :=
  match x with S754_zero _ | S754_finite _ _ _ => true | _ => false end.

(** [float(n)] for an integer that a double holds exactly. *)
Definition of_int (n : Z) : float := binary_normalize prec emax n 0 false.

(** The decimal literal [m / 10^k].  Both integers are exact doubles for
    the literals of this program, so the one rounding of the division gives
    the double nearest to the literal, which is what the parser produces. *)
Definition decimal (m : Z) (k : nat) : float :=
  fdiv (of_int m) (of_int (10 ^ Z.of_nat k)).

Definition zero : float := S754_zero false.
Definition ten : float := of_int 10.

(** [x / y]: [float_div] refuses a zero divisor of either sign and leaves
    everything else to the hardware. *)
Definition truediv (x y : float) : result float :=
  if feq y zero then Raise ZeroDivisionError else Ok (fdiv x y).

(** [math.sqrt x]: the C function, then the errno protocol of [math_1]:
    a NaN that did not come from a NaN is a domain error. *)
Definition math_sqrt (x : float) : result float :=
  let r := fsqrt x in
  if is_nan r && negb (is_nan x) then Raise ValueError else Ok r.

Definition Fr_default : float := decimal 6 1.
Definition g_default : float := decimal 981 2.

(** [calculate_velocity_from_dunes(L, H, D_50, Fr, g)]. *)
Definition calculate_velocity_from_dunes (L H D_50 Fr g : float)
  : result (float * float * float) :=
  h <- truediv L ten ;;
  s <- math_sqrt (fmul g h) ;;
  let U := fmul Fr s in
  H_L_ratio <- truediv H L ;;
  Ok (U, h, H_L_ratio).

(** *** Formatting *)

(** [m * 2^e * 10^p] rounded to the nearest integer, ties to even: the
    digits [float.__format__] obtains from the correctly rounded
    conversion of the stored binary value. *)
Definition scaled_round (m : positive) (e : Z) (p : nat) : Z :=
  let num := Zpos m * 10 ^ Z.of_nat p in
  match e with
  | Zneg k =>
      let den := 2 ^ Zpos k in
      let q := num / den in
      match 2 * (num mod den) ?= den with
      | Lt => q
      | Gt => q + 1
      | Eq => if Z.even q then q else q + 1
      end
  | _ => num * 2 ^ e
  end.

(** [format(x, ".pf")]. *)
Definition format_f (p : nat) (x : float) : string :=
  match x with
  | S754_nan => "nan"
  | S754_infinity s => if s then "-inf" else "inf"
  | S754_zero s => render_fixed s 0 p
  | S754_finite s m e => render_fixed s (scaled_round m e p) p
  end.

(** *** The dune half of the driver (lines 67 to 78) *)

Definition L_driver : result float :=
  truediv (of_int (193 + 166 + 205)) (of_int 3).
Definition H_driver : float := fsub (decimal 245365 3) (decimal 239871 3).
Definition D_50_driver : float := decimal 5 2.
Definition Fr_driver : float := decimal 6 1.

Definition dune_lines (U_dune h_dune H_L_ratio : float) : list string :=
  [ ("Estimated water depth (h) from dunes: " ++ format_f 2 h_dune ++ " m")%string;
    ("Mean flow velocity (U) from dunes: " ++ format_f 2 U_dune ++ " m/s")%string;
    ("Dune steepness (H/L): " ++ format_f 3 H_L_ratio)%string ].

Definition driver_dunes : result (float * float * float) :=
  L <- L_driver ;;
  calculate_velocity_from_dunes L H_driver D_50_driver Fr_driver g_default.

Definition driver_dunes_run : run :=
  match driver_dunes with
  | Ok (U_dune, h_dune, H_L_ratio) =>
      {| stdout := dune_lines U_dune h_dune H_L_ratio; status := Ok tt |}
  | Raise e => {| stdout := []; status := Raise e |}
  end.

(** *** Reference definitions *)

(** The triple the specification gives for the dune model, with the bare
    IEEE operations and no fault. *)
Definition dunes_reference (L H Fr g : float) : float * float * float :=
  (fmul Fr (fsqrt (fmul g (fdiv L ten))), fdiv L ten, fdiv H L).

(** The sign bit is clear, or the number is a NaN. *)
Definition sign_clear (x : float) : bool :=
  match x with
  | S754_nan => true
  | S754_zero s | S754_infinity s | S754_finite s _ _ => negb s
  end.



Definition min_subnormal : float := S754_finite false 1 (-1074).

End Binary64.

(** ** Exact real semantics *)

Module Exact.

Local Open Scope R_scope.
Local Open Scope py_scope.

(** A number at run time: [**] turns a float into a complex when the base
    is negative and the exponent is not an integer. *)
Inductive pynum : Type :=
| PyFloat (x : R)
| PyComplex (re im : R).

(** [x / y] on floats. *)
Definition truediv (x y : R) : result R :=
  if Req_dec_T y 0 then Raise ZeroDivisionError else Ok (x / y).

(** [math.sqrt x]. *)
Definition math_sqrt (x : R) : result R :=
  if Rlt_dec x 0 then Raise ValueError else Ok (sqrt x).

(** [x ** y] on floats ([float_pow]).  A zero base refuses a negative
    exponent; a negative base with a fractional exponent is handed to the
    complex power, which works in polar form with phase [pi * y]. *)
Definition py_pow (x y : R) : result pynum :=
  if Req_dec_T y 0 then Ok (PyFloat 1)
  else if Req_dec_T x 0 then
    if Rlt_dec y 0 then Raise ZeroDivisionError else Ok (PyFloat 0)
  else if Rlt_dec 0 x then Ok (PyFloat (Rpower x y))
  else if Req_dec_T y (IZR (Int_part y)) then Ok (PyFloat (powerRZ x (Int_part y)))
  else Ok (PyComplex (Rpower (- x) y * cos (PI * y)) (Rpower (- x) y * sin (PI * y))).

(** [a * b], the float operand promoted when the other is complex. *)
Definition num_mul (a b : pynum) : pynum :=
  match a, b with
  | PyFloat x, PyFloat y => PyFloat (x * y)
  | PyFloat x, PyComplex c d => PyComplex (x * c) (x * d)
  | PyComplex c d, PyFloat y => PyComplex (c * y) (d * y)
  | PyComplex a1 b1, PyComplex a2 b2 =>
      PyComplex (a1 * a2 - b1 * b2) (a1 * b2 + b1 * a2)
  end.

(** [x / b] for a float numerator. *)
Definition num_truediv (x : R) (b : pynum) : result pynum :=
  match b with
  | PyFloat y => r <- truediv x y ;; Ok (PyFloat r)
  | PyComplex c d =>
      if Req_dec_T c 0 then
        if Req_dec_T d 0 then Raise ZeroDivisionError
        else Ok (PyComplex (x * c / (c * c + d * d)) (- (x * d) / (c * c + d * d)))
      else Ok (PyComplex (x * c / (c * c + d * d)) (- (x * d) / (c * c + d * d)))
  end.

(** [math.log10 a]: a complex argument is a type error, a float that is
    not strictly positive a domain error. *)
Definition math_log10 (a : pynum) : result R :=
  match a with
  | PyComplex _ _ => Raise TypeError
  | PyFloat x => if Rlt_dec 0 x then Ok (ln x / ln 10) else Raise ValueError
  end.

(** [calculate_mean_velocity(d_s, d_w, D_50, sigma_g, g, h_o, w_o, nu)]. *)
Definition calculate_mean_velocity (d_s d_w D_50 sigma_g g h_o w_o nu : R)
  : result pynum :=
  e23 <- truediv 2 3 ;;
  a <- py_pow h_o e23 ;;
  e13 <- truediv 1 3 ;;
  b <- py_pow w_o e13 ;;
  let L_A := num_mul a b in
  q <- num_truediv (d_s * d_w * D_50 * sigma_g * g) (num_mul L_A (PyFloat nu)) ;;
  l <- math_log10 q ;;
  let log_Um := 0.46 + 0.326 * l in
  py_pow 10 log_Um.

Definition Fr_default : R := 0.6.
Definition g_default : R := 9.81.

(** [calculate_velocity_from_dunes(L, H, D_50, Fr, g)]. *)
Definition calculate_velocity_from_dunes (L H D_50 Fr g : R)
  : result (R * R * R) :=
  h <- truediv L 10 ;;
  s <- math_sqrt (g * h) ;;
  let U := Fr * s in
  H_L_ratio <- truediv H L ;;
  Ok (U, h, H_L_ratio).

(** *** Formatting *)

(** The integer nearest to [y], ties to even. *)
Definition round_half_even (y : R) : Z :=
  let n := Int_part y in
  if Rlt_dec (y - IZR n) (1 / 2) then n
  else if Rlt_dec (1 / 2) (y - IZR n) then (n + 1)%Z
  else if Z.even n then n else (n + 1)%Z.

(** [format(x, ".pf")] on a float. *)
Definition format_f (p : nat) (x : R) : string :=
  if Rlt_dec x 0 then render_fixed true (round_half_even (- x * 10 ^ p)) p
  else render_fixed false (round_half_even (x * 10 ^ p)) p.

(** [format(z, ".pf")]: a complex prints both parts and a [j]. *)
Definition format_num (p : nat) (a : pynum) : string :=
  match a with
  | PyFloat x => format_f p x
  | PyComplex re im =>
      (format_f p re ++ (if Rlt_dec im 0 then "-" else "+") ++
       format_f p (Rabs im) ++ "j")%string
  end.

(** *** The driver (lines 65 to 93) *)

Definition dune_lines (U_dune h_dune H_L_ratio : R) : list string :=
  [ ("Estimated water depth (h) from dunes: " ++ format_f 2 h_dune ++ " m")%string;
    ("Mean flow velocity (U) from dunes: " ++ format_f 2 U_dune ++ " m/s")%string;
    ("Dune steepness (H/L): " ++ format_f 3 H_L_ratio)%string ].

Definition scour_line (U_scour : pynum) : string :=
  ("The calculated mean flow velocity (U_m) from scour mark: " ++
   format_num 2 U_scour ++ " m/s")%string.

Definition L_driver : result R := truediv (193 + 166 + 205) 3.
Definition H_driver : R := 245.365 - 239.871.
Definition D_50_driver : R := 0.05.
Definition Fr_driver : R := 0.6.
Definition d_s_driver : R := 333.9 - 331.5.
Definition sigma_g_driver : R := 1.5.
Definition g_driver : R := 9.81.
Definition h_o_driver : R := 341.7 - 333.5.
Definition w_o_driver : R := 16.2.
Definition nu_driver : R := 1.0e-3.

Definition driver_dunes : result (R * R * R) :=
  L <- L_driver ;;
  calculate_velocity_from_dunes L H_driver D_50_driver Fr_driver g_default.

Definition driver_scour (h_dune : R) : result pynum :=
  calculate_mean_velocity d_s_driver h_dune D_50_driver sigma_g_driver
    g_driver h_o_driver w_o_driver nu_driver.

(** The script: nothing is printed before the dune model has returned,
    and the fourth line only after the scour model has. *)
Definition main : run :=
  match driver_dunes with
  | Raise e => {| stdout := []; status := Raise e |}
  | Ok (U_dune, h_dune, H_L_ratio) =>
      let out := dune_lines U_dune h_dune H_L_ratio in
      match driver_scour h_dune with
      | Raise e => {| stdout := out; status := Raise e |}
      | Ok U_scour => {| stdout := out ++ [scour_line U_scour]; status := Ok tt |}
      end
  end.

(** *** Reference definitions *)

(** The regression formula as the specification writes it. *)
Definition log10 (x : R) : R := ln x / ln 10.

Definition L_A_spec (h_o w_o : R) : R := Rpower h_o (2 / 3) * Rpower w_o (1 / 3).

Definition U_m_spec (d_s d_w D_50 sigma_g g h_o w_o nu : R) : R :=
  Rpower 10
    (0.46 + 0.326 * log10 ((d_s * d_w * D_50 * sigma_g * g) / (L_A_spec h_o w_o * nu))).

(** The argument handed to [math.log10] on line 32, with the faults that
    can precede the call. *)
Definition log_argument (d_s d_w D_50 sigma_g g h_o w_o nu : R) : result pynum :=
  e23 <- truediv 2 3 ;;
  a <- py_pow h_o e23 ;;
  e13 <- truediv 1 3 ;;
  b <- py_pow w_o e13 ;;
  num_truediv (d_s * d_w * D_50 * sigma_g * g) (num_mul (num_mul a b) (PyFloat nu)).

(** What a run of the script writes. *)
Definition expected_stdout : list string :=
  [ "Estimated water depth (h) from dunes: 18.80 m"%string;
    "Mean flow velocity (U) from dunes: 8.15 m/s"%string;
    "Dune steepness (H/L): 0.029"%string;
    "The calculated mean flow velocity (U_m) from scour mark: 40.16 m/s"%string ].

End Exact.

(** ** Truncated powers

    A proof device, not part of the program: powers of integers bounded
    from below and from above by numbers with a 64-bit mantissa, computed
    by repeated squaring, so that a statement about the 1500th power of the
    scour velocity is decided by arithmetic on small integers. *)

Module Truncated.

Local Open Scope Z_scope.

(** A binary bound [(m, e)] stands for [m * 2^e]. *)
Definition val (x : Z * Z) : Z := fst x * 2 ^ snd x.

(** Bits of the mantissa that are dropped to keep 64 of them. *)
Definition excess (m : Z) : Z := Z.log2 m - 63.

Definition cut_lo (x : Z * Z) : Z * Z :=
  let s := excess (fst x) in
  if 0 <? s then (Z.shiftr (fst x) s, snd x + s) else x.

Definition cut_hi (x : Z * Z) : Z * Z :=
  let s := excess (fst x) in
  if 0 <? s then (Z.shiftr (fst x) s + 1, snd x + s) else x.

Definition times (x y : Z * Z) : Z * Z := (fst x * fst y, snd x + snd y).

Fixpoint pow_lo (b : Z * Z) (n : positive) : Z * Z :=
  match n with
  | xH => b
  | xO p => let y := pow_lo b p in cut_lo (times y y)
  | xI p => let y := pow_lo b p in cut_lo (times b (cut_lo (times y y)))
  end.

Fixpoint pow_hi (b : Z * Z) (n : positive) : Z * Z :=
  match n with
  | xH => b
  | xO p => let y := pow_hi b p in cut_hi (times y y)
  | xI p => let y := pow_hi b p in cut_hi (times b (cut_hi (times y y)))
  end.

Definition below (x y : Z * Z) : bool :=
  if snd x <=? snd y then fst x <? Z.shiftl (fst y) (snd y - snd x)
  else Z.shiftl (fst x) (snd x - snd y) <? fst y.

(** [a^na * c^nc < b^nb * d^nd], decided on 64-bit bounds. *)
Definition powers_below (a : Z) (na : positive) (c : Z) (nc : positive)
                        (b : Z) (nb : positive) (d : Z) (nd : positive) : bool :=
  below (times (pow_hi (a, 0) na) (pow_hi (c, 0) nc))
        (times (pow_lo (b, 0) nb) (pow_lo (d, 0) nd)).

Definition good (x : Z * Z) : Prop := 0 <= fst x /\ 0 <= snd x.

(** The cube of the driver's logarithm argument is the ratio of these. *)
Definition cube_num : Z := Eval vm_compute in ((24 * 188 * 5 * 15 * 981) ^ 3).
Definition cube_den : Z := Eval vm_compute in (10 ^ 9 * 82 ^ 2 * 162).

End Truncated.

(** ** Vocabulary for further laws of the dune model *)

Module Behaviour.

(** The sign bit of a double is set, or the number is a NaN. *)
Definition sign_set (x : Binary64.float) : bool :=
  match x with
  | S754_nan => true
  | S754_zero s | S754_infinity s | S754_finite s _ _ => s
  end.

End Behaviour.

(** ** The scour model in binary64

    [calculate_mean_velocity] leaves the IEEE operations twice: [**] and
    [math.log10] end in the C library's [pow] and [log10], whose last bits
    no standard fixes.  The embedding takes the C library as a parameter
    and models everything CPython does around it: the special cases
    [float_pow] settles before it calls [pow], the [errno] protocol after
    the call, the domain checks of [math.log10], and the complex numbers a
    negative base produces.  A statement that holds for every [libm] holds
    for the one the interpreter is linked against. *)

Module Binary64Scour.
Import Binary64.

Local Open Scope Z_scope.
Local Open Scope py_scope.

(** [errno] after a call into the C library; [EDOM] stands for every
    value other than zero and [ERANGE], which CPython treats alike. *)
Inductive errno : Set := ENONE | ERANGE | EDOM.

(** The C library as this program reaches it.  [complex_pow] is CPython's
    power of a negative float to a fractional exponent, which it computes
    from [hypot], [atan2], [pow], [cos] and [sin] and which may raise. *)
Record libm : Type := {
  c_pow : float -> float -> float * errno;
  c_log10 : float -> float * errno;
  complex_pow : float -> float -> result (float * float)
}.

(** A number at run time. *)
Inductive pynum : Type :=
| PyFloat (x : float)
| PyComplex (re im : float).

Definition fadd : float -> float -> float := SFadd prec emax.
Definition fabs : float -> float := SFabs.
Definition fneg : float -> float := SFopp.
Definition one : float := of_int 1.

Definition is_inf (x : float) : bool :=
  match x with S754_infinity _ => true | _ => false end.

(** [x == floor(x)] for a double. *)
Definition is_integral (x : float) : bool :=
  match x with
  | S754_zero _ | S754_infinity _ => true
  | S754_nan => false
  | S754_finite _ m e =>
      if 0 <=? e then true else Z.pos m mod 2 ^ (- e) =? 0
  end.

(** [DOUBLE_IS_ODD_INTEGER(x)]: [fmod(fabs(x), 2.0) == 1.0]. *)
Definition is_odd_integer (x : float) : bool :=
  match x with
  | S754_finite _ m e =>
      if 0 <? e then false
      else (Z.pos m mod 2 ^ (- e) =? 0) && Z.odd (Z.pos m / 2 ^ (- e))
  | _ => false
  end.

Definition copysign_zero (x : float) : float :=
  match x with
  | S754_zero s | S754_infinity s | S754_finite s _ _ => S754_zero s
  | S754_nan => S754_zero false
  end.

(** [_Py_ADJUST_ERANGE1]: an infinite result is a range error whether the
    library said so or not, and a range error on a zero result is an
    underflow, which is forgiven. *)
Definition adjust_erange1 (r : float) (e : errno) : errno :=
  match e with
  | ENONE => if is_inf r then ERANGE else ENONE
  | ERANGE => if feq r zero then ENONE else ERANGE
  | EDOM => EDOM
  end.

(** [x ** y] on floats ([float_pow]): the special cases in the order of
    the C source, then the library. *)
Definition float_pow (m : libm) (x y : float) : result pynum :=
  if feq y zero then Ok (PyFloat one)
  else if is_nan x then Ok (PyFloat x)
  else if is_nan y then Ok (PyFloat (if feq x one then one else y))
  else if is_inf y then
    let ax := fabs x in
    if feq ax one then Ok (PyFloat one)
    else if Bool.eqb (flt zero y) (flt one ax) then Ok (PyFloat (fabs y))
    else Ok (PyFloat zero)
  else if is_inf x then
    if flt zero y then Ok (PyFloat (if is_odd_integer y then x else fabs x))
    else Ok (PyFloat (if is_odd_integer y then copysign_zero x else zero))
  else if feq x zero then
    if flt y zero then Raise ZeroDivisionError
    else Ok (PyFloat (if is_odd_integer y then x else zero))
  else if flt x zero && negb (is_integral y) then
    ' (re, im) <- complex_pow m x y ;;
    Ok (PyComplex re im)
  else
    let negate := flt x zero && is_odd_integer y in
    let ax := if flt x zero then fneg x else x in
    if feq ax one then Ok (PyFloat (if negate then fneg one else one))
    else
      let r := fst (c_pow m ax y) in
      match adjust_erange1 r (snd (c_pow m ax y)) with
      | ENONE => Ok (PyFloat (if negate then fneg r else r))
      | ERANGE => Raise OverflowError
      | EDOM => Raise ValueError
      end.

(** [a * b] on numbers: a float operand is promoted when the other is
    complex, and the complex product is [_Py_c_prod]. *)
Definition to_complex (a : pynum) : float * float :=
  match a with
  | PyFloat x => (x, zero)
  | PyComplex re im => (re, im)
  end.

Definition c_prod (a b : float * float) : float * float :=
  (fsub (fmul (fst a) (fst b)) (fmul (snd a) (snd b)),
   fadd (fmul (fst a) (snd b)) (fmul (snd a) (fst b))).

Definition num_mul (a b : pynum) : pynum :=
  match a, b with
  | PyFloat x, PyFloat y => PyFloat (fmul x y)
  | _, _ =>
      let p := c_prod (to_complex a) (to_complex b) in
      PyComplex (fst p) (snd p)
  end.

(** [_Py_c_quot]: [None] is [errno = EDOM], a zero divisor. *)
Definition c_abs (x : float) : float := if flt x zero then fneg x else x.

Definition c_quot (a b : float * float) : option (float * float) :=
  let abs_breal := c_abs (fst b) in
  let abs_bimag := c_abs (snd b) in
  if fle abs_bimag abs_breal then
    if feq abs_breal zero then None
    else
      let ratio := fdiv (snd b) (fst b) in
      let denom := fadd (fst b) (fmul (snd b) ratio) in
      Some (fdiv (fadd (fst a) (fmul (snd a) ratio)) denom,
            fdiv (fsub (snd a) (fmul (fst a) ratio)) denom)
  else if fle abs_breal abs_bimag then
    let ratio := fdiv (fst b) (snd b) in
    let denom := fadd (fmul (fst b) ratio) (snd b) in
    Some (fdiv (fadd (fmul (fst a) ratio) (snd a)) denom,
          fdiv (fsub (fmul (snd a) ratio) (fst a)) denom)
  else Some (S754_nan, S754_nan).

(** [x / b] for a float numerator. *)
Definition num_truediv (x : float) (b : pynum) : result pynum :=
  match b with
  | PyFloat y => r <- truediv x y ;; Ok (PyFloat r)
  | PyComplex re im =>
      match c_quot (x, zero) (re, im) with
      | None => Raise ZeroDivisionError
      | Some q => Ok (PyComplex (fst q) (snd q))
      end
  end.

(** [m_log10]: the library is asked only about finite positive numbers. *)
Definition m_log10 (m : libm) (x : float) : float * errno :=
  if is_finite x then
    if flt zero x then c_log10 m x
    else if feq x zero then (S754_infinity true, EDOM)
    else (S754_nan, EDOM)
  else if is_nan x then (x, ENONE)
  else if flt zero x then (x, ENONE)
  else (S754_nan, EDOM).

(** [is_error]: what a non-zero [errno] means for a finite result. *)
Definition is_error (r : float) (e : errno) : option exn :=
  match e with
  | ENONE => None
  | EDOM => Some ValueError
  | ERANGE => if flt (fabs r) (decimal 15 1) then None else Some OverflowError
  end.

(** [math_1] with [can_overflow = 0]. *)
Definition math_1 (x r : float) (e : errno) : result float :=
  if is_nan r && negb (is_nan x) then Raise ValueError
  else if is_inf r && is_finite x then Raise ValueError
  else if is_finite r then
    match is_error r e with
    | Some ex => Raise ex
    | None => Ok r
    end
  else Ok r.

(** [math.log10 a]. *)
Definition math_log10 (m : libm) (a : pynum) : result float :=
  match a with
  | PyComplex _ _ => Raise TypeError
  | PyFloat x => math_1 x (fst (m_log10 m x)) (snd (m_log10 m x))
  end.

(** The product of the five numerator arguments, left to right. *)
Definition numerator (d_s d_w D_50 sigma_g g : float) : float :=
  fmul (fmul (fmul (fmul d_s d_w) D_50) sigma_g) g.

(** [calculate_mean_velocity(d_s, d_w, D_50, sigma_g, g, h_o, w_o, nu)]. *)
Definition calculate_mean_velocity (m : libm)
    (d_s d_w D_50 sigma_g g h_o w_o nu : float) : result pynum :=
  e23 <- truediv (of_int 2) (of_int 3) ;;
  a <- float_pow m h_o e23 ;;
  e13 <- truediv (of_int 1) (of_int 3) ;;
  b <- float_pow m w_o e13 ;;
  let L_A := num_mul a b in
  q <- num_truediv (numerator d_s d_w D_50 sigma_g g) (num_mul L_A (PyFloat nu)) ;;
  l <- math_log10 m q ;;
  let log_Um := fadd (decimal 46 2) (fmul (decimal 326 3) l) in
  float_pow m ten log_Um.

(** *** The driver's arguments *)

Definition d_s_driver : float := fsub (decimal 3339 1) (decimal 3315 1).
Definition sigma_g_driver : float := decimal 15 1.
Definition g_driver : float := decimal 981 2.
Definition h_o_driver : float := fsub (decimal 3417 1) (decimal 3335 1).
Definition w_o_driver : float := decimal 162 1.
Definition nu_driver : float := decimal 1 3.
Definition h_dune_driver : float := fdiv (of_int 188) ten.

(** [2^-600] and [2^600]: their squares leave the range of a double. *)
Definition small : float := S754_finite false 4503599627370496 (-652).
Definition large : float := S754_finite false 4503599627370496 548.


(** *** Reference definitions *)

Definition two_thirds : float := fdiv (of_int 2) (of_int 3).
Definition one_third : float := fdiv (of_int 1) (of_int 3).

(** The float [x ** y] evaluates to, when it evaluates to one. *)
Definition pow_value (m : libm) (x y : float) : float :=
  match float_pow m x y with
  | Ok (PyFloat v) => v
  | _ => S754_nan
  end.

Definition log10_value (m : libm) (x : float) : float :=
  match math_log10 m (PyFloat x) with
  | Ok v => v
  | Raise _ => S754_nan
  end.

(** [L_A * nu] as a float. *)
Definition denominator (m : libm) (h_o w_o nu : float) : float :=
  fmul (fmul (pow_value m h_o two_thirds) (pow_value m w_o one_third)) nu.

(** The library accepted by [float_pow]: no range or domain error is
    left after the adjustment. *)
Definition pow_quiet (m : libm) (x y : float) : bool :=
  match adjust_erange1 (fst (c_pow m x y)) (snd (c_pow m x y)) with
  | ENONE => true
  | _ => false
  end.

(** The library accepted by [math.log10] at a finite positive argument: a
    finite result and no error that [is_error] reports. *)
Definition log10_quiet (m : libm) (x : float) : bool :=
  is_finite (fst (c_log10 m x)) &&
  match is_error (fst (c_log10 m x)) (snd (c_log10 m x)) with
  | None => true
  | Some _ => false
  end.

(** The C library at the four calls of the driver's run:
    [pow(8.199999999999989, 2/3) = 4.06639193103523],
    [pow(16.2, 1/3) = 2.5302979959052476],
    [log10(3226.401829857476) = 3.5087184553102424] and
    [pow(10, 1.603842216431139) = 40.164486270567345].
    Everywhere else it reports a domain error. *)
Definition driver_libm : libm := {|
  c_pow := fun x y =>
    if feq x h_o_driver && feq y two_thirds
    then (S754_finite false 4578350296338163 (-50), ENONE)
    else if feq x w_o_driver && feq y one_third
    then (S754_finite false 5697724555747593 (-51), ENONE)
    else if feq x ten && feq y (S754_finite false 7223063208280348 (-52))
    then (S754_finite false 5652648918801703 (-47), ENONE)
    else (S754_nan, EDOM);
  c_log10 := fun x =>
    if feq x (S754_finite false 7094932655612117 (-41))
    then (S754_finite false 7900931563941595 (-51), ENONE)
    else (S754_nan, EDOM);
  complex_pow := fun _ _ => Raise OverflowError
|}.

End Binary64Scour.

(** * Truncated powers bound the exact ones *)

Module TruncatedFacts.
Import Truncated.

Local Open Scope Z_scope.

Lemma val_nonneg x : good x -> 0 <= val x.
Proof.
  intros [Hm He]. unfold val. apply Z.mul_nonneg_nonneg; [ assumption | ].
  apply Z.pow_nonneg; lia.
Qed.

Lemma cut_lo_spec x : good x -> good (cut_lo x) /\ val (cut_lo x) <= val x.
Proof.
  intros [Hm He]. unfold cut_lo, val, good.
  destruct (0 <? excess (fst x)) eqn:E; [ | lia ].
  apply Z.ltb_lt in E. cbn [fst snd]. set (s := excess (fst x)) in *.
  rewrite Z.shiftr_div_pow2 by lia.
  assert (Hd : 0 < 2 ^ s) by (apply Z.pow_pos_nonneg; lia).
  pose proof (Z.mul_div_le (fst x) (2 ^ s) Hd) as Hq.
  assert (0 <= fst x / 2 ^ s) by (apply Z.div_pos; lia).
  assert (0 <= 2 ^ snd x) by (apply Z.pow_nonneg; lia).
  rewrite Z.pow_add_r by lia.
  split; [ lia | ].
  replace (fst x / 2 ^ s * (2 ^ snd x * 2 ^ s))
    with (2 ^ s * (fst x / 2 ^ s) * 2 ^ snd x) by ring.
  apply Z.mul_le_mono_nonneg_r; assumption.
Qed.

Lemma cut_hi_spec x : good x -> good (cut_hi x) /\ val x <= val (cut_hi x).
Proof.
  intros [Hm He]. unfold cut_hi, val, good.
  destruct (0 <? excess (fst x)) eqn:E; [ | lia ].
  apply Z.ltb_lt in E. cbn [fst snd]. set (s := excess (fst x)) in *.
  rewrite Z.shiftr_div_pow2 by lia.
  assert (Hd : 0 < 2 ^ s) by (apply Z.pow_pos_nonneg; lia).
  pose proof (Z.mul_succ_div_gt (fst x) (2 ^ s) Hd) as Hq.
  assert (0 <= fst x / 2 ^ s) by (apply Z.div_pos; lia).
  assert (0 <= 2 ^ snd x) by (apply Z.pow_nonneg; lia).
  rewrite Z.pow_add_r by lia.
  split; [ lia | ].
  replace ((fst x / 2 ^ s + 1) * (2 ^ snd x * 2 ^ s))
    with (2 ^ s * Z.succ (fst x / 2 ^ s) * 2 ^ snd x) by ring.
  apply Z.mul_le_mono_nonneg_r; lia.
Qed.

Lemma times_spec x y :
  good x -> good y -> good (times x y) /\ val (times x y) = val x * val y.
Proof.
  intros [Hx Ex] [Hy Ey]. unfold times, val, good. cbn [fst snd].
  rewrite Z.pow_add_r by lia. split; [ | ring ].
  split; [ apply Z.mul_nonneg_nonneg; assumption | lia ].
Qed.

Lemma pow_lo_spec b n :
  good b -> good (pow_lo b n) /\ val (pow_lo b n) <= val b ^ Z.pos n.
Proof.
  intros Hb. pose proof (val_nonneg b Hb) as Hvb.
  induction n as [n [Hg IH]|n [Hg IH]|]; cbn [pow_lo].
  - destruct (times_spec _ _ Hg Hg) as [G1 E1].
    destruct (cut_lo_spec _ G1) as [G2 L2].
    destruct (times_spec _ _ Hb G2) as [G3 E3].
    destruct (cut_lo_spec _ G3) as [G4 L4].
    split; [ assumption | ].
    pose proof (val_nonneg _ Hg) as Hy.
    assert (Hsq : val (pow_lo b n) * val (pow_lo b n) <= val b ^ Z.pos n * val b ^ Z.pos n)
      by (apply Z.mul_le_mono_nonneg; assumption).
    replace (Z.pos n~1) with (1 + (Z.pos n + Z.pos n)) by lia.
    rewrite Z.pow_add_r, Z.pow_1_r, Z.pow_add_r by lia.
    assert (val b * val (cut_lo (times (pow_lo b n) (pow_lo b n))) <=
            val b * (val b ^ Z.pos n * val b ^ Z.pos n))
      by (apply Z.mul_le_mono_nonneg_l; lia).
    lia.
  - destruct (times_spec _ _ Hg Hg) as [G1 E1].
    destruct (cut_lo_spec _ G1) as [G2 L2].
    split; [ assumption | ].
    pose proof (val_nonneg _ Hg) as Hy.
    assert (Hsq : val (pow_lo b n) * val (pow_lo b n) <= val b ^ Z.pos n * val b ^ Z.pos n)
      by (apply Z.mul_le_mono_nonneg; assumption).
    replace (Z.pos n~0) with (Z.pos n + Z.pos n) by lia.
    rewrite Z.pow_add_r by lia. lia.
  - split; [ assumption | ]. rewrite Z.pow_1_r. lia.
Qed.

Lemma pow_hi_spec b n :
  good b -> good (pow_hi b n) /\ val b ^ Z.pos n <= val (pow_hi b n).
Proof.
  intros Hb. pose proof (val_nonneg b Hb) as Hvb.
  assert (Hp : forall k, 0 <= val b ^ Z.pos k) by (intros k; apply Z.pow_nonneg; assumption).
  induction n as [n [Hg IH]|n [Hg IH]|]; cbn [pow_hi].
  - destruct (times_spec _ _ Hg Hg) as [G1 E1].
    destruct (cut_hi_spec _ G1) as [G2 L2].
    destruct (times_spec _ _ Hb G2) as [G3 E3].
    destruct (cut_hi_spec _ G3) as [G4 L4].
    split; [ assumption | ].
    pose proof (Hp n) as Hy.
    assert (Hsq : val b ^ Z.pos n * val b ^ Z.pos n <= val (pow_hi b n) * val (pow_hi b n))
      by (apply Z.mul_le_mono_nonneg; assumption).
    replace (Z.pos n~1) with (1 + (Z.pos n + Z.pos n)) by lia.
    rewrite Z.pow_add_r, Z.pow_1_r, Z.pow_add_r by lia.
    assert (val b * (val b ^ Z.pos n * val b ^ Z.pos n) <=
            val b * val (cut_hi (times (pow_hi b n) (pow_hi b n))))
      by (apply Z.mul_le_mono_nonneg_l; lia).
    lia.
  - destruct (times_spec _ _ Hg Hg) as [G1 E1].
    destruct (cut_hi_spec _ G1) as [G2 L2].
    split; [ assumption | ].
    pose proof (Hp n) as Hy.
    assert (Hsq : val b ^ Z.pos n * val b ^ Z.pos n <= val (pow_hi b n) * val (pow_hi b n))
      by (apply Z.mul_le_mono_nonneg; assumption).
    replace (Z.pos n~0) with (Z.pos n + Z.pos n) by lia.
    rewrite Z.pow_add_r by lia. lia.
  - split; [ assumption | ]. rewrite Z.pow_1_r. lia.
Qed.

Lemma below_spec x y : good x -> good y -> below x y = true -> val x < val y.
Proof.
  intros [Hx Ex] [Hy Ey]. unfold below, val.
  destruct (snd x <=? snd y) eqn:E; intros H; apply Z.ltb_lt in H;
    rewrite Z.shiftl_mul_pow2 in H by lia.
  - apply Z.leb_le in E.
    assert (Hs : 2 ^ snd y = 2 ^ (snd y - snd x) * 2 ^ snd x)
      by (rewrite <- Z.pow_add_r by lia; f_equal; lia).
    assert (0 < 2 ^ snd x) by (apply Z.pow_pos_nonneg; lia).
    rewrite Hs, Z.mul_assoc. apply Z.mul_lt_mono_pos_r; assumption.
  - apply Z.leb_gt in E.
    assert (Hs : 2 ^ snd x = 2 ^ (snd x - snd y) * 2 ^ snd y)
      by (rewrite <- Z.pow_add_r by lia; f_equal; lia).
    assert (0 < 2 ^ snd y) by (apply Z.pow_pos_nonneg; lia).
    rewrite Hs, Z.mul_assoc. apply Z.mul_lt_mono_pos_r; assumption.
Qed.

Lemma val_exact a : val (a, 0) = a.
Proof. unfold val. cbn [fst snd]. lia. Qed.

Lemma powers_below_spec a na c nc b nb d nd :
  0 <= a -> 0 <= c -> 0 <= b -> 0 <= d ->
  powers_below a na c nc b nb d nd = true ->
  a ^ Z.pos na * c ^ Z.pos nc < b ^ Z.pos nb * d ^ Z.pos nd.
Proof.
  intros Ha Hc Hb Hd H. unfold powers_below in H.
  assert (Ga : good (a, 0)) by (split; cbn; lia).
  assert (Gc : good (c, 0)) by (split; cbn; lia).
  assert (Gb : good (b, 0)) by (split; cbn; lia).
  assert (Gd : good (d, 0)) by (split; cbn; lia).
  destruct (pow_hi_spec _ na Ga) as [A1 A2].
  destruct (pow_hi_spec _ nc Gc) as [C1 C2].
  destruct (pow_lo_spec _ nb Gb) as [B1 B2].
  destruct (pow_lo_spec _ nd Gd) as [D1 D2].
  destruct (times_spec _ _ A1 C1) as [G1 E1].
  destruct (times_spec _ _ B1 D1) as [G2 E2].
  apply below_spec in H; try assumption.
  rewrite E1, E2 in H. rewrite val_exact in *.
  assert (0 <= a ^ Z.pos na) by (apply Z.pow_nonneg; assumption).
  assert (0 <= c ^ Z.pos nc) by (apply Z.pow_nonneg; assumption).
  pose proof (val_nonneg _ B1). pose proof (val_nonneg _ D1).
  assert (a ^ Z.pos na * c ^ Z.pos nc <=
          val (pow_hi (a, 0) na) * val (pow_hi (c, 0) nc))
    by (apply Z.mul_le_mono_nonneg; assumption).
  assert (val (pow_lo (b, 0) nb) * val (pow_lo (d, 0) nd) <=
          b ^ Z.pos nb * d ^ Z.pos nd)
    by (apply Z.mul_le_mono_nonneg; assumption).
  lia.
Qed.

End TruncatedFacts.

(** * Properties of the binary64 semantics *)

Module Binary64Facts.
Import Binary64.

Local Open Scope Z_scope.
Local Open Scope py_scope.

(** *** Sign of a rounded result *)

Lemma round_aux_cases s m e l :
  let r := binary_round_aux prec emax s m e l in
  r = S754_nan \/ r = S754_zero s \/ r = S754_infinity s \/
  exists m' e', r = S754_finite s m' e'.
Proof.
  unfold binary_round_aux.
  destruct (shr_fexp prec emax m e l) as [mrs1 e1].
  destruct (shr_fexp prec emax _ e1 loc_Exact) as [mrs2 e2].
  destruct (shr_m mrs2) as [|q|q]; cbn zeta.
  - auto.
  - destruct (e2 <=? emax - prec); eauto 6.
  - auto.
Qed.

Lemma round_aux_sign_clear m e l :
  sign_clear (binary_round_aux prec emax false m e l) = true.
Proof.
  destruct (round_aux_cases false m e l) as [H|[H|[H|(m' & e' & H)]]];
    rewrite H; reflexivity.
Qed.

Lemma positive_sign_clear x : flt zero x = true -> sign_clear x = true.
Proof. destruct x as [[]|[]| |[] m e]; simpl; intros H; try reflexivity; discriminate. Qed.

Lemma fmul_sign_clear x y :
  sign_clear x = true -> sign_clear y = true -> sign_clear (fmul x y) = true.
Proof.
  destruct x as [[]|[]| |[] mx ex]; destruct y as [[]|[]| |[] my ey];
    simpl; intros Hx Hy; try reflexivity; try discriminate.
  apply round_aux_sign_clear.
Qed.

Lemma fdiv_sign_clear x y :
  sign_clear x = true -> sign_clear y = true -> sign_clear (fdiv x y) = true.
Proof.
  destruct x as [[]|[]| |[] mx ex]; destruct y as [[]|[]| |[] my ey];
    simpl; intros Hx Hy; try reflexivity; try discriminate.
  unfold fdiv, SFdiv.
  destruct (SFdiv_core_binary prec emax (Z.pos mx) ex (Z.pos my) ey) as [[mz ez] lz].
  apply round_aux_sign_clear.
Qed.


(** *** Rounding never invents a NaN *)

Lemma iter_pos_invariant {A : Type} (P : A -> Prop) (f : A -> A) :
  (forall x, P x -> P (f x)) -> forall p x, P x -> P (SpecFloat.iter_pos f p x).
Proof.
  intros Hf. induction p as [p IH|p IH|]; intros x Hx; simpl; auto.
Qed.

Lemma shr_1_nonneg mrs : 0 <= shr_m mrs -> 0 <= shr_m (shr_1 mrs).
Proof.
  destruct mrs as [m r s]. simpl.
  destruct m as [|[p|p|]|p]; simpl; intros H; lia.
Qed.

Lemma shr_nonneg mrs e n : 0 <= shr_m mrs -> 0 <= shr_m (fst (shr mrs e n)).
Proof.
  intros H. destruct n as [|p|p]; simpl; try assumption.
  apply (iter_pos_invariant (fun x => 0 <= shr_m x)); auto using shr_1_nonneg.
Qed.

Lemma shr_m_of_loc m l : shr_m (shr_record_of_loc m l) = m.
Proof. destruct l as [|[]]; reflexivity. Qed.

Lemma shr_fexp_nonneg m e l :
  0 <= m -> 0 <= shr_m (fst (shr_fexp prec emax m e l)).
Proof.
  intros H. unfold shr_fexp. apply shr_nonneg. rewrite shr_m_of_loc. assumption.
Qed.

Lemma round_nearest_even_nonneg m l : 0 <= m -> 0 <= round_nearest_even m l.
Proof.
  intros H. destruct l as [|[]]; simpl; try lia.
  destruct (Z.even m); lia.
Qed.

Lemma round_aux_not_nan s m e l :
  0 <= m -> binary_round_aux prec emax s m e l <> S754_nan.
Proof.
  intros Hm. unfold binary_round_aux.
  pose proof (shr_fexp_nonneg m e l Hm) as H1.
  destruct (shr_fexp prec emax m e l) as [mrs1 e1]. simpl in H1.
  pose proof (shr_fexp_nonneg _ e1 loc_Exact
                (round_nearest_even_nonneg _ (loc_of_shr_record mrs1) H1)) as H2.
  destruct (shr_fexp prec emax _ e1 loc_Exact) as [mrs2 e2]. simpl in H2.
  destruct (shr_m mrs2) as [|q|q]; cbn zeta.
  - discriminate.
  - destruct (e2 <=? emax - prec); discriminate.
  - lia.
Qed.

Lemma sqrt_core_nonneg mx ex :
  0 <= fst (fst (SFsqrt_core_binary prec emax (Z.pos mx) ex)).
Proof.
  unfold SFsqrt_core_binary.
  set (e' := Z.min _ _). set (sh := ex - 2 * e').
  set (m' := match sh with Z.pos _ => Z.shiftl (Z.pos mx) sh | 0 => Z.pos mx | Z.neg _ => 0 end).
  assert (Hm' : 0 <= m').
  { subst m'. destruct sh; try lia. apply Z.shiftl_nonneg. lia. }
  pose proof (Z.sqrtrem_spec m' Hm') as Hs.
  destruct (Z.sqrtrem m') as [q r]. simpl. lia.
Qed.

(** [math.sqrt] returns on anything that is not below zero. *)
Lemma math_sqrt_sign_clear x :
  sign_clear x = true -> math_sqrt x = Ok (fsqrt x).
Proof.
  intros Hx. unfold math_sqrt.
  destruct x as [s|[]| |[] mx ex]; try reflexivity; try discriminate.
  unfold fsqrt, SFsqrt.
  pose proof (sqrt_core_nonneg mx ex) as Hq.
  destruct (SFsqrt_core_binary prec emax (Z.pos mx) ex) as [[mz ez] lz]. simpl in Hq.
  pose proof (round_aux_not_nan false mz ez lz Hq) as Hn.
  destruct (binary_round_aux prec emax false mz ez lz); try reflexivity.
  contradiction.
Qed.

Lemma feq_ten_zero : feq ten zero = false.
Proof. reflexivity. Qed.

Lemma positive_not_zero x : flt zero x = true -> feq x zero = false.
Proof. destruct x as [[]|[]| |[] m e]; simpl; intros H; try reflexivity; discriminate. Qed.

Lemma dunes_positive L H D_50 Fr g :
  flt zero L = true -> flt zero g = true ->
  calculate_velocity_from_dunes L H D_50 Fr g = Ok (dunes_reference L H Fr g).
Proof.
  intros HL Hg. unfold calculate_velocity_from_dunes, dunes_reference, truediv.
  rewrite feq_ten_zero. cbn [bind].
  rewrite math_sqrt_sign_clear.
  - cbn [bind]. rewrite (positive_not_zero L HL). reflexivity.
  - apply fmul_sign_clear; [ apply positive_sign_clear; assumption | ].
    apply fdiv_sign_clear; [ apply positive_sign_clear; assumption | reflexivity ].
Qed.


(** *** Rounding and the exponent *)

Lemma digits2_size p : digits2_pos p = Pos.size p.
Proof. induction p; simpl; congruence. Qed.

Lemma Zdigits2_log2 p : Zdigits2 (Z.pos p) = Z.log2 (Z.pos p) + 1.
Proof.
  simpl. rewrite digits2_size. destruct p; simpl; try reflexivity; rewrite Pos.add_1_r; reflexivity.
Qed.

Lemma Zdigits2_le m k : 0 <= m -> 0 <= k -> m < 2 ^ k -> Zdigits2 m <= k.
Proof.
  intros Hm Hk H. destruct m as [|p|p]; try lia.
  - simpl. lia.
  - rewrite Zdigits2_log2. apply Z.log2_lt_pow2 in H; lia.
Qed.

Lemma Zdigits2_gt m : 0 <= m -> m < 2 ^ Zdigits2 m.
Proof.
  intros Hm. destruct m as [|p|p]; try lia.
  - simpl. lia.
  - rewrite Zdigits2_log2. apply Z.log2_lt_pow2; lia.
Qed.

Lemma Zdigits2_nonneg m : 0 <= Zdigits2 m.
Proof. destruct m; simpl; lia. Qed.

Lemma shr_1_half mrs :
  0 <= shr_m mrs -> 0 <= shr_m (shr_1 mrs) /\ 2 * shr_m (shr_1 mrs) <= shr_m mrs.
Proof.
  destruct mrs as [m r s].
  destruct m as [|[p|p|]|p]; cbn [shr_1 shr_m]; intros Hm; lia.
Qed.

Lemma iter_shr_1_bound p : forall mrs, 0 <= shr_m mrs ->
  0 <= shr_m (SpecFloat.iter_pos shr_1 p mrs) /\
  shr_m (SpecFloat.iter_pos shr_1 p mrs) * 2 ^ Z.pos p <= shr_m mrs.
Proof.
  induction p as [p IH|p IH|]; intros mrs Hm; simpl SpecFloat.iter_pos.
  - destruct (shr_1_half mrs Hm) as [Ha1 Ha2].
    destruct (IH _ Ha1) as [Hb1 Hb2].
    destruct (IH _ Hb1) as [Hc1 Hc2].
    split; [ assumption | ].
    assert (HK : 0 < 2 ^ Z.pos p) by (apply Z.pow_pos_nonneg; lia).
    replace (2 ^ Z.pos p~1) with (2 ^ Z.pos p * 2 ^ Z.pos p * 2)
      by (replace (Z.pos p~1) with (Z.pos p * 2 + 1) by lia;
          rewrite Z.pow_add_r, Z.pow_mul_r, Z.pow_2_r, Z.pow_1_r by lia; reflexivity).
    set (K := 2 ^ Z.pos p) in *.
    set (c := shr_m (SpecFloat.iter_pos shr_1 p (SpecFloat.iter_pos shr_1 p (shr_1 mrs)))) in *.
    set (b := shr_m (SpecFloat.iter_pos shr_1 p (shr_1 mrs))) in *.
    assert (c * K * K <= b * K) by (apply Z.mul_le_mono_nonneg_r; lia).
    lia.
  - destruct (IH _ Hm) as [Hb1 Hb2].
    destruct (IH _ Hb1) as [Hc1 Hc2].
    split; [ assumption | ].
    assert (HK : 0 < 2 ^ Z.pos p) by (apply Z.pow_pos_nonneg; lia).
    replace (2 ^ Z.pos p~0) with (2 ^ Z.pos p * 2 ^ Z.pos p)
      by (replace (Z.pos p~0) with (Z.pos p * 2) by lia;
          rewrite Z.pow_mul_r, Z.pow_2_r by lia; reflexivity).
    set (K := 2 ^ Z.pos p) in *.
    set (c := shr_m (SpecFloat.iter_pos shr_1 p (SpecFloat.iter_pos shr_1 p mrs))) in *.
    set (b := shr_m (SpecFloat.iter_pos shr_1 p mrs)) in *.
    assert (c * K * K <= b * K) by (apply Z.mul_le_mono_nonneg_r; lia).
    lia.
  - destruct (shr_1_half mrs Hm) as [Ha1 Ha2]. split; [ assumption | ].
    change (2 ^ 1) with 2. lia.
Qed.

Lemma rne_bounds m l :
  0 <= m -> m <= round_nearest_even m l <= m + 1.
Proof.
  intros Hm. destruct l as [|[]]; simpl; try lia. destruct (Z.even m); lia.
Qed.

(** What one pass of [shr_fexp] does to mantissa and exponent. *)
Lemma shr_fexp_spec m e l :
  0 <= m ->
  let n := fexp prec emax (Zdigits2 m + e) - e in
  0 <= shr_m (fst (shr_fexp prec emax m e l)) /\
  ((n <= 0 /\ snd (shr_fexp prec emax m e l) = e /\
    shr_m (fst (shr_fexp prec emax m e l)) = m) \/
   (0 < n /\ snd (shr_fexp prec emax m e l) = e + n /\
    shr_m (fst (shr_fexp prec emax m e l)) * 2 ^ n <= m)).
Proof.
  intros Hm n. unfold shr_fexp. fold n.
  destruct n as [|p|p] eqn:Hn; simpl shr; cbn [fst snd].
  - rewrite shr_m_of_loc. split; [ assumption | left; lia ].
  - destruct (iter_shr_1_bound p (shr_record_of_loc m l)) as [H1 H2].
    { rewrite shr_m_of_loc; assumption. }
    rewrite shr_m_of_loc in H2.
    split; [ assumption | right; repeat split; try lia; assumption ].
  - rewrite shr_m_of_loc. split; [ assumption | left; lia ].
Qed.

(** Raising the exponent by one leaves the shift alone, unless the
    number sits in the subnormal range. *)
Lemma shr_fexp_succ m e l :
  fexp prec emax (Zdigits2 m + e) - e <= 0 \/
  emin prec emax <= Zdigits2 m + e - prec ->
  shr_fexp prec emax m (e + 1) l =
  (fst (shr_fexp prec emax m e l), snd (shr_fexp prec emax m e l) + 1).
Proof.
  intros H. unfold shr_fexp.
  set (d := Zdigits2 m) in *. set (rec := shr_record_of_loc m l).
  set (n := fexp prec emax (d + e) - e) in *.
  set (n' := fexp prec emax (d + (e + 1)) - (e + 1)).
  assert (Hn : n' = n \/ (n <= 0 /\ n' <= 0)).
  { subst n n'. unfold fexp, emin, prec, emax in *. lia. }
  destruct Hn as [->|[Hn Hn']].
  - unfold shr. destruct n; cbn [fst snd]; f_equal; lia.
  - unfold shr. destruct n, n'; cbn [fst snd]; try reflexivity; lia.
Qed.

Lemma round_aux_succ s m E l mu eu :
  0 <= m ->
  binary_round_aux prec emax s m E l = S754_finite s mu eu ->
  emin prec emax < eu -> eu + 1 <= emax - prec ->
  binary_round_aux prec emax s m (E + 1) l = S754_finite s mu (eu + 1).
Proof.
  intros Hm H Hlo Hhi. unfold binary_round_aux in *.
  pose proof (shr_fexp_spec m E l Hm) as S1. cbv zeta in S1.
  destruct (shr_fexp prec emax m E l) as [mrs1 e1] eqn:H1. cbn [fst snd] in S1.
  destruct S1 as [Hnn1 S1].
  set (m2 := round_nearest_even (shr_m mrs1) (loc_of_shr_record mrs1)) in *.
  pose proof (rne_bounds (shr_m mrs1) (loc_of_shr_record mrs1) Hnn1) as Hm2. fold m2 in Hm2.
  assert (Hm2' : 0 <= m2) by lia.
  pose proof (shr_fexp_spec m2 e1 loc_Exact Hm2') as S2. cbv zeta in S2.
  destruct (shr_fexp prec emax m2 e1 loc_Exact) as [mrs2 e2] eqn:H2. cbn [fst snd] in S2.
  destruct S2 as [Hnn2 S2].
  destruct (shr_m mrs2) as [|q|q] eqn:Hq; try discriminate.
  destruct (e2 <=? emax - prec) eqn:Hle; try discriminate.
  injection H as -> ->.
  (* second pass *)
  assert (C2 : fexp prec emax (Zdigits2 m2 + e1) - e1 <= 0 \/
               emin prec emax <= Zdigits2 m2 + e1 - prec).
  { destruct S2 as [(Hn & _)|(Hn & He & _)]; [ left; assumption | right ].
    unfold fexp in *. lia. }
  (* first pass *)
  assert (C1 : fexp prec emax (Zdigits2 m + E) - E <= 0 \/
               emin prec emax <= Zdigits2 m + E - prec).
  { destruct S1 as [(Hn & _)|(Hn & He & Hb)]; [ left; assumption | right ].
    destruct (Z_le_gt_dec (emin prec emax) (Zdigits2 m + E - prec)) as [|Hsub];
      [ assumption | exfalso ].
    assert (Hf : fexp prec emax (Zdigits2 m + E) = emin prec emax)
      by (unfold fexp; lia).
    rewrite Hf in *.
    set (n1 := emin prec emax - E) in *.
    assert (Hlt : shr_m mrs1 < 2 ^ 52).
    { destruct (Z_lt_ge_dec (shr_m mrs1) (2 ^ 52)) as [|Hge]; [ assumption | exfalso ].
      pose proof (Zdigits2_gt m Hm) as Hd.
      assert (2 ^ Zdigits2 m <= 2 ^ (52 + n1)).
      { apply Z.pow_le_mono_r; [ lia | ]. subst n1. unfold prec in *. lia. }
      rewrite Z.pow_add_r in H by lia.
      assert (2 ^ 52 * 2 ^ n1 <= shr_m mrs1 * 2 ^ n1).
      { apply Z.mul_le_mono_nonneg_r; [ apply Z.pow_nonneg | ]; lia. }
      lia. }
    assert (Hd2 : Zdigits2 m2 <= 53).
    { apply Zdigits2_le; lia. }
    destruct S2 as [(_ & He2 & _)|(Hn2 & _)].
    - lia.
    - unfold fexp, prec in *. lia. }
  rewrite (shr_fexp_succ m E l C1), H1. cbn [fst snd]. fold m2.
  rewrite (shr_fexp_succ m2 e1 loc_Exact C2), H2. cbn [fst snd].
  rewrite Hq.
  replace (eu + 1 <=? emax - prec) with true by (symmetry; apply Z.leb_le; assumption).
  reflexivity.
Qed.

(** *** The dune model *)

(** [math.sqrt] faults exactly below zero. *)
Lemma math_sqrt_spec x :
  math_sqrt x = if flt x zero then Raise ValueError else Ok (fsqrt x).
Proof.
  destruct x as [[]|[]| |[] mx ex]; try reflexivity.
  rewrite math_sqrt_sign_clear by reflexivity. reflexivity.
Qed.

Lemma fdiv_ten_of_zero L : feq L zero = true -> exists s, fdiv L ten = S754_zero s.
Proof.
  destruct L as [s|[]| |[] m e]; intros H; try discriminate H.
  exists (xorb s false). reflexivity.
Qed.

Lemma sqrt_of_scaled_zero g s : exists r, math_sqrt (fmul g (S754_zero s)) = Ok r.
Proof.
  destruct g as [[]|[]| |[] mg eg], s; eexists; reflexivity.
Qed.

Lemma dunes_zero_length L H D_50 Fr g :
  feq L zero = true ->
  calculate_velocity_from_dunes L H D_50 Fr g = Raise ZeroDivisionError.
Proof.
  intros HL. unfold calculate_velocity_from_dunes, truediv.
  rewrite feq_ten_zero. cbn [bind].
  destruct (fdiv_ten_of_zero L HL) as [s ->].
  destruct (sqrt_of_scaled_zero g s) as [r ->]. cbn [bind].
  rewrite HL. reflexivity.
Qed.

Lemma dunes_nonzero_length L H D_50 Fr g :
  feq L zero = false ->
  calculate_velocity_from_dunes L H D_50 Fr g =
  if flt (fmul g (fdiv L ten)) zero then Raise ValueError
  else Ok (dunes_reference L H Fr g).
Proof.
  intros HL. unfold calculate_velocity_from_dunes, dunes_reference, truediv.
  rewrite feq_ten_zero. cbn [bind]. rewrite math_sqrt_spec.
  destruct (flt (fmul g (fdiv L ten)) zero); cbn [bind]; [ reflexivity | ].
  rewrite HL. reflexivity.
Qed.

Lemma fdiv_finite_cases sx mx ex sy my ey :
  let r := fdiv (S754_finite sx mx ex) (S754_finite sy my ey) in
  r = S754_nan \/ r = S754_zero (xorb sx sy) \/ r = S754_infinity (xorb sx sy) \/
  exists m' e', r = S754_finite (xorb sx sy) m' e'.
Proof.
  unfold fdiv, SFdiv.
  destruct (SFdiv_core_binary prec emax (Z.pos mx) ex (Z.pos my) ey) as [[mz ez] lz].
  apply round_aux_cases.
Qed.

Lemma fmul_finite_cases sx mx ex sy my ey :
  let r := fmul (S754_finite sx mx ex) (S754_finite sy my ey) in
  r = S754_nan \/ r = S754_zero (xorb sx sy) \/ r = S754_infinity (xorb sx sy) \/
  exists m' e', r = S754_finite (xorb sx sy) m' e'.
Proof. unfold fmul, SFmul. apply round_aux_cases. Qed.

(** Below zero, the depth and its product with a positive [g] keep the
    sign bit, whatever the rounding does. *)
Lemma negative_depth_cases L :
  flt L zero = true ->
  let h := fdiv L ten in
  h = S754_nan \/ h = S754_zero true \/ h = S754_infinity true \/
  exists m e, h = S754_finite true m e.
Proof.
  intros HL. destruct L as [[]|[]| |[] m e]; try discriminate HL.
  - right; right; left; reflexivity.
  - change ten with (S754_finite false 5629499534213120 (-49)).
    apply (fdiv_finite_cases true m e false).
Qed.

Lemma negative_product_cases L g :
  flt L zero = true -> flt zero g = true ->
  let p := fmul g (fdiv L ten) in
  flt p zero = true \/ p = S754_zero true \/ p = S754_nan.
Proof.
  intros HL Hg. pose proof (negative_depth_cases L HL) as Hh. cbv zeta in *.
  destruct g as [[]|[]| |[] mg eg]; try discriminate Hg.
  - destruct Hh as [->|[->|[->|(m & e & ->)]]]; simpl; auto.
  - destruct Hh as [->|[->|[->|(m & e & ->)]]]; try (simpl; auto; fail).
    destruct (fmul_finite_cases false mg eg true m e)
      as [E|[E|[E|(m' & e' & E)]]]; rewrite E; simpl; auto.
Qed.


(** *** Doubling the Froude number *)

(** *** Shifts that lose nothing *)

















(** *** The statements about the dune model *)

(** C1.  For every [L > 0], every [H], and every [Fr > 0] and [g > 0], the
    call returns, and what it returns is the reference triple:
    [h = L / 10], [U = Fr * sqrt (g * h)], [H_L_ratio = H / L]. *)
Theorem dunes_returns_reference L H D_50 Fr g :
  flt zero L = true -> flt zero Fr = true -> flt zero g = true ->
  calculate_velocity_from_dunes L H D_50 Fr g = Ok (dunes_reference L H Fr g).
Proof.
  intros HL _ Hg. unfold calculate_velocity_from_dunes, dunes_reference, truediv.
  rewrite feq_ten_zero. cbn [bind].
  assert (Hs : sign_clear (fmul g (fdiv L ten)) = true).
  { apply fmul_sign_clear; [ apply positive_sign_clear; assumption | ].
    apply fdiv_sign_clear; [ apply positive_sign_clear; assumption | reflexivity ]. }
  rewrite (math_sqrt_sign_clear _ Hs). cbn [bind].
  rewrite (positive_not_zero L HL). reflexivity.
Qed.

Lemma dunes_returns_reference_witness :
  flt zero (of_int 188) = true /\ flt zero Fr_driver = true /\
  flt zero g_default = true /\
  calculate_velocity_from_dunes (of_int 188) H_driver D_50_driver Fr_driver g_default =
  Ok (dunes_reference (of_int 188) H_driver Fr_driver g_default).
Proof.
  split; [ reflexivity | split; [ reflexivity | split; [ reflexivity | ] ] ].
  apply (dunes_returns_reference (of_int 188) H_driver D_50_driver Fr_driver g_default);
    reflexivity.
Defined.

(** C8.  The grain size is never read: two calls that differ only in
    [D_50] have the same outcome, fault or triple. *)
Theorem dunes_ignores_grain_size L H D_50 D_50' Fr g :
  calculate_velocity_from_dunes L H D_50 Fr g =
  calculate_velocity_from_dunes L H D_50' Fr g.
Proof. reflexivity. Qed.

(** C5 does not hold for every non-positive length: at [L = -5e-324], the
    negative double nearest to zero, [L / 10] rounds to [-0.0], the square
    root of [-0.0] is [-0.0], [L] itself is not zero, and the call returns
    [(-0.0, -0.0, -inf)]. *)
Lemma tiny_negative_length_returns :
  valid_binary prec emax (SFopp min_subnormal) = true /\
  fle (SFopp min_subnormal) zero = true /\
  flt zero Fr_default = true /\ flt zero g_default = true /\
  calculate_velocity_from_dunes (SFopp min_subnormal) (of_int 1) D_50_driver
    Fr_default g_default =
  Ok (S754_zero true, S754_zero true, S754_infinity true).
Proof. repeat split. Qed.

(** C5, as the code has it.  For [L <= 0] and [g > 0] the call raises
    [ZeroDivisionError] when [L] is zero and [ValueError] when the rounded
    product [g * (L / 10)] is below zero; it returns the reference triple in
    the one remaining case, where [L] is negative and that product has
    underflowed to [-0.0] or is a NaN. *)
Theorem nonpositive_length_faults_unless_underflow L H D_50 Fr g :
  fle L zero = true -> flt zero g = true ->
  let p := fmul g (fdiv L ten) in
  calculate_velocity_from_dunes L H D_50 Fr g =
    (if feq L zero then Raise ZeroDivisionError
     else if flt p zero then Raise ValueError
     else Ok (dunes_reference L H Fr g)) /\
  (feq L zero = false -> flt p zero = false ->
   p = S754_zero true \/ p = S754_nan).
Proof.
  intros HL Hg p. split.
  - destruct (feq L zero) eqn:Hz.
    + apply dunes_zero_length; assumption.
    + apply dunes_nonzero_length; assumption.
  - intros Hz Hp.
    assert (Hneg : flt L zero = true).
    { destruct L as [[]|[]| |[] m e]; try discriminate; reflexivity. }
    destruct (negative_product_cases L g Hneg Hg) as [Hc|Hc]; [ | exact Hc ].
    fold p in Hc. congruence.
Qed.

Lemma nonpositive_length_faults_unless_underflow_witness :
  fle (of_int (-188)) zero = true /\ flt zero g_default = true /\
  calculate_velocity_from_dunes (of_int (-188)) H_driver D_50_driver Fr_driver
    g_default = Raise ValueError.
Proof.
  split; [ reflexivity | split; [ reflexivity | ] ].
  exact (proj1 (nonpositive_length_faults_unless_underflow
                  (of_int (-188)) H_driver D_50_driver Fr_driver g_default
                  eq_refl eq_refl)).
Defined.




End Binary64Facts.

(** * Properties of the exact semantics *)

Module ExactFacts.
Import Exact.

Local Open Scope R_scope.
Local Open Scope py_scope.

Lemma bind_Ok {A B} (c : result A) (k : A -> result B) (b : B) :
  bind c k = Ok b -> exists a, c = Ok a /\ k a = Ok b.
Proof.
  destruct c as [a|e]; simpl; intros H; [ exists a; auto | discriminate ].
Qed.

Lemma truediv_nonzero x y : y <> 0 -> truediv x y = Ok (x / y).
Proof.
  intros Hy. unfold truediv. destruct (Req_dec_T y 0); [ contradiction | reflexivity ].
Qed.

Lemma truediv_zero x : truediv x 0 = Raise ZeroDivisionError.
Proof.
  unfold truediv. destruct (Req_dec_T 0 0); [ reflexivity | exfalso; auto ].
Qed.

Lemma Rpower_pos x y : 0 < Rpower x y.
Proof. unfold Rpower. apply exp_pos. Qed.

Lemma py_pow_pos x y : 0 < x -> py_pow x y = Ok (PyFloat (Rpower x y)).
Proof.
  intros Hx. unfold py_pow.
  destruct (Req_dec_T y 0) as [->|Hy].
  - rewrite Rpower_O by assumption. reflexivity.
  - destruct (Req_dec_T x 0); [ lra | ].
    destruct (Rlt_dec 0 x); [ reflexivity | contradiction ].
Qed.

Lemma ln_10_pos : 0 < ln 10.
Proof. rewrite <- ln_1. apply ln_increasing; lra. Qed.

Lemma math_log10_pos x : 0 < x -> math_log10 (PyFloat x) = Ok (log10 x).
Proof.
  intros Hx. simpl. destruct (Rlt_dec 0 x); [ reflexivity | contradiction ].
Qed.

(** The function is the logarithm argument, then the regression. *)
Lemma calculate_mean_velocity_split d_s d_w D_50 sigma_g g h_o w_o nu :
  calculate_mean_velocity d_s d_w D_50 sigma_g g h_o w_o nu =
  (q <- log_argument d_s d_w D_50 sigma_g g h_o w_o nu ;;
   l <- math_log10 q ;;
   py_pow 10 (0.46 + 0.326 * l)).
Proof.
  unfold calculate_mean_velocity, log_argument.
  destruct (truediv 2 3); simpl; [ | reflexivity ].
  destruct (py_pow h_o a); simpl; [ | reflexivity ].
  destruct (truediv 1 3); simpl; [ | reflexivity ].
  destruct (py_pow w_o a1); simpl; reflexivity.
Qed.

Lemma log_argument_pos d_s d_w D_50 sigma_g g h_o w_o nu :
  0 < h_o -> 0 < w_o -> nu <> 0 ->
  log_argument d_s d_w D_50 sigma_g g h_o w_o nu =
  Ok (PyFloat ((d_s * d_w * D_50 * sigma_g * g) / (L_A_spec h_o w_o * nu))).
Proof.
  intros Hh Hw Hnu. unfold log_argument.
  rewrite !truediv_nonzero by lra. simpl.
  rewrite (py_pow_pos h_o) by assumption. simpl.
  rewrite (py_pow_pos w_o) by assumption. simpl.
  rewrite truediv_nonzero; [ reflexivity | ].
  unfold L_A_spec.
  pose proof (Rpower_pos h_o (2 / 3)). pose proof (Rpower_pos w_o (1 / 3)).
  apply Rmult_integral_contrapositive_currified; [ nra | assumption ].
Qed.

Lemma calculate_mean_velocity_pos d_s d_w D_50 sigma_g g h_o w_o nu :
  0 < d_s -> 0 < d_w -> 0 < D_50 -> 0 < sigma_g -> 0 < g ->
  0 < h_o -> 0 < w_o -> 0 < nu ->
  calculate_mean_velocity d_s d_w D_50 sigma_g g h_o w_o nu =
  Ok (PyFloat (U_m_spec d_s d_w D_50 sigma_g g h_o w_o nu)).
Proof.
  intros Hds Hdw HD Hs Hg Hh Hw Hnu.
  rewrite calculate_mean_velocity_split.
  rewrite log_argument_pos by lra. cbn [bind].
  assert (HLA : 0 < L_A_spec h_o w_o * nu).
  { unfold L_A_spec. repeat apply Rmult_lt_0_compat; auto using Rpower_pos. }
  assert (Hnum : 0 < d_s * d_w * D_50 * sigma_g * g).
  { repeat apply Rmult_lt_0_compat; assumption. }
  rewrite math_log10_pos by (apply Rdiv_lt_0_compat; assumption).
  cbn [bind]. rewrite py_pow_pos by lra. reflexivity.
Qed.

(** *** The regression in closed form *)

Lemma regression_closed_form X :
  0 < X -> Rpower 10 (0.46 + 0.326 * log10 X) = Rpower 10 0.46 * Rpower X 0.326.
Proof.
  intros HX. rewrite Rpower_plus. f_equal.
  unfold Rpower, log10. f_equal.
  pose proof ln_10_pos. field. lra.
Qed.

Lemma L_A_nu_pos h_o w_o nu : 0 < nu -> 0 < L_A_spec h_o w_o * nu.
Proof.
  intros Hnu. unfold L_A_spec. repeat apply Rmult_lt_0_compat; auto using Rpower_pos.
Qed.


(** *** The dune model in exact arithmetic *)

Lemma math_sqrt_nonneg x : 0 <= x -> math_sqrt x = Ok (sqrt x).
Proof.
  intros Hx. unfold math_sqrt. destruct (Rlt_dec x 0); [ lra | reflexivity ].
Qed.

Lemma math_sqrt_neg x : x < 0 -> math_sqrt x = Raise ValueError.
Proof.
  intros Hx. unfold math_sqrt. destruct (Rlt_dec x 0); [ reflexivity | contradiction ].
Qed.

Lemma exact_dunes_positive L H D_50 Fr g :
  0 < L -> 0 < g ->
  calculate_velocity_from_dunes L H D_50 Fr g =
  Ok (Fr * sqrt (g * (L / 10)), L / 10, H / L).
Proof.
  intros HL Hg. unfold calculate_velocity_from_dunes.
  rewrite truediv_nonzero by lra. cbn [bind].
  rewrite math_sqrt_nonneg by nra. cbn [bind].
  rewrite truediv_nonzero by lra. reflexivity.
Qed.

(** In exact arithmetic no rounding can save a non-positive length. *)
Lemma exact_dunes_nonpositive L H D_50 Fr g :
  L <= 0 -> 0 < g ->
  calculate_velocity_from_dunes L H D_50 Fr g =
  if Req_dec_T L 0 then Raise ZeroDivisionError else Raise ValueError.
Proof.
  intros HL Hg. unfold calculate_velocity_from_dunes.
  rewrite truediv_nonzero by lra. cbn [bind].
  destruct (Req_dec_T L 0) as [->|Hnz].
  - rewrite math_sqrt_nonneg by lra. cbn [bind]. rewrite truediv_zero. reflexivity.
  - rewrite math_sqrt_neg by nra. reflexivity.
Qed.

(** In exact arithmetic doubling the Froude number doubles the velocity. *)
Lemma exact_dunes_doubled_Fr L H D_50 Fr g :
  0 < L -> 0 < g ->
  calculate_velocity_from_dunes L H D_50 (2 * Fr) g =
  Ok (2 * (Fr * sqrt (g * (L / 10))), L / 10, H / L).
Proof.
  intros HL Hg. rewrite exact_dunes_positive by assumption.
  do 3 f_equal. ring.
Qed.


(** *** Formatting and the driver *)

Lemma round_half_even_near y n :
  IZR n - 1 / 2 < y < IZR n + 1 / 2 -> round_half_even y = n.
Proof.
  intros [Hlo Hhi]. unfold round_half_even.
  destruct (base_Int_part y) as [Hk1 Hk2].
  set (k := Int_part y) in *.
  assert (Hk : (k = n \/ k = n - 1)%Z).
  { assert (k < n + 1)%Z by (apply lt_IZR; rewrite plus_IZR; lra).
    assert (n - 2 < k)%Z by (apply lt_IZR; rewrite minus_IZR; lra).
    lia. }
  destruct Hk as [->| ->].
  - destruct (Rlt_dec (y - IZR n) (1 / 2)); [ reflexivity | lra ].
  - rewrite minus_IZR in *.
    destruct (Rlt_dec (y - (IZR n - 1)) (1 / 2)); [ lra | ].
    destruct (Rlt_dec (1 / 2) (y - (IZR n - 1))); [ lia | lra ].
Qed.

Lemma format_f_near p x n :
  0 <= x -> IZR n - 1 / 2 < x * 10 ^ p < IZR n + 1 / 2 ->
  format_f p x = render_fixed false n p.
Proof.
  intros Hx Hn. unfold format_f.
  destruct (Rlt_dec x 0); [ lra | ].
  rewrite (round_half_even_near _ n Hn). reflexivity.
Qed.

Lemma sqrt_between a b x :
  0 <= a -> 0 <= b -> a * a < x < b * b -> a < sqrt x < b.
Proof.
  intros Ha Hb [Hlo Hhi]. split.
  - rewrite <- (sqrt_square a Ha). apply sqrt_lt_1; nra.
  - rewrite <- (sqrt_square b Hb). apply sqrt_lt_1; nra.
Qed.

Lemma driver_dunes_eval :
  driver_dunes = Ok (0.6 * sqrt (9.81 * 18.8), 18.8, 5.494 / 188).
Proof.
  unfold driver_dunes, L_driver. rewrite truediv_nonzero by lra. cbn [bind].
  rewrite exact_dunes_positive by (unfold g_default; lra).
  unfold Fr_driver, g_default, H_driver.
  replace ((193 + 166 + 205) / 3 / 10) with 18.8 by lra.
  replace ((245.365 - 239.871) / ((193 + 166 + 205) / 3)) with (5.494 / 188) by lra.
  reflexivity.
Qed.

Lemma U_dune_bounds : 8.148 < 0.6 * sqrt (9.81 * 18.8) < 8.149.
Proof.
  destruct (sqrt_between 13.58 13.581 (9.81 * 18.8)) as [H1 H2]; lra.
Qed.

Lemma depth_line : format_f 2 18.8 = "18.80"%string.
Proof. rewrite (format_f_near 2 18.8 1880); [ reflexivity | lra | simpl; lra ]. Qed.

Lemma velocity_line : format_f 2 (0.6 * sqrt (9.81 * 18.8)) = "8.15"%string.
Proof.
  pose proof U_dune_bounds as HU.
  rewrite (format_f_near 2 _ 815); [ reflexivity | lra | simpl; lra ].
Qed.

Lemma steepness_line : format_f 3 (5.494 / 188) = "0.029"%string.
Proof. rewrite (format_f_near 3 _ 29); [ reflexivity | lra | simpl; lra ]. Qed.

Lemma driver_scour_eval :
  driver_scour 18.8 = Ok (PyFloat (U_m_spec 2.4 18.8 0.05 1.5 9.81 8.2 16.2 0.001)).
Proof.
  unfold driver_scour, d_s_driver, D_50_driver, sigma_g_driver, g_driver,
    h_o_driver, w_o_driver, nu_driver.
  rewrite calculate_mean_velocity_pos by lra.
  replace (333.9 - 331.5) with 2.4 by lra.
  replace (341.7 - 333.5) with 8.2 by lra.
  replace 1.0e-3 with 0.001 by lra.
  reflexivity.
Qed.

(** *** The scour velocity of the driver, to five digits *)

Lemma pow_ratio (p q : Z) (n : nat) :
  (0 < q)%Z ->
  (IZR p / IZR q) ^ n = IZR (p ^ Z.of_nat n) / IZR (q ^ Z.of_nat n).
Proof.
  intros Hq. rewrite <- !pow_IZR.
  assert (IZR q <> 0) by (apply not_0_IZR; lia).
  unfold Rdiv. rewrite Rpow_mult_distr, pow_inv. reflexivity.
Qed.

Lemma ratio_lt (a b c d : Z) :
  (0 < b)%Z -> (0 < d)%Z -> (a * d < c * b)%Z ->
  IZR a / IZR b < IZR c / IZR d.
Proof.
  intros Hb Hd H. apply IZR_lt in H. rewrite !mult_IZR in H.
  apply IZR_lt in Hb. apply IZR_lt in Hd.
  apply Rmult_lt_reg_r with (IZR b * IZR d); [ apply Rmult_lt_0_compat; assumption | ].
  replace (IZR a / IZR b * (IZR b * IZR d)) with (IZR a * IZR d) by (field; lra).
  replace (IZR c / IZR d * (IZR b * IZR d)) with (IZR c * IZR b) by (field; lra).
  exact H.
Qed.

Lemma pow_positive (b : Z) (n : nat) : (0 < b)%Z -> (0 < b ^ Z.of_nat n)%Z.
Proof. intros Hb. apply Z.pow_pos_nonneg; [ assumption | apply Nat2Z.is_nonneg ]. Qed.

Lemma L_A_cubed h_o w_o :
  0 < h_o -> 0 < w_o -> L_A_spec h_o w_o ^ 3 = h_o ^ 2 * w_o.
Proof.
  intros Hh Hw. unfold L_A_spec. rewrite Rpow_mult_distr.
  rewrite <- !Rpower_pow by apply Rpower_pos.
  rewrite !Rpower_mult.
  replace (2 / 3 * INR 3) with (INR 2) by (simpl; lra).
  replace (1 / 3 * INR 3) with 1 by (simpl; lra).
  rewrite Rpower_pow, Rpower_1 by assumption. reflexivity.
Qed.

(** The 1500th power of the velocity is a rational function of the
    arguments. *)
Lemma U_m_spec_pow d_s d_w D_50 sigma_g g h_o w_o nu :
  0 < d_s -> 0 < d_w -> 0 < D_50 -> 0 < sigma_g -> 0 < g ->
  0 < h_o -> 0 < w_o -> 0 < nu ->
  Rpower (U_m_spec d_s d_w D_50 sigma_g g h_o w_o nu) (INR 1500) =
  10 ^ 690 * ((d_s * d_w * D_50 * sigma_g * g) ^ 3 / (h_o ^ 2 * w_o * nu ^ 3)) ^ 163.
Proof.
  intros Hds Hdw HD Hs Hg Hh Hw Hnu.
  pose proof (L_A_nu_pos h_o w_o nu Hnu) as HLA.
  assert (HN : 0 < d_s * d_w * D_50 * sigma_g * g)
    by (repeat apply Rmult_lt_0_compat; assumption).
  set (N := d_s * d_w * D_50 * sigma_g * g) in *.
  assert (HX : 0 < N / (L_A_spec h_o w_o * nu)) by (apply Rdiv_lt_0_compat; assumption).
  unfold U_m_spec. fold N. rewrite regression_closed_form by assumption.
  rewrite <- Rpower_mult_distr by apply Rpower_pos.
  rewrite !Rpower_mult.
  replace (0.46 * INR 1500) with (INR 690) by (rewrite !INR_IZR_INZ; simpl; lra).
  replace (0.326 * INR 1500) with (INR (3 * 163)) by (rewrite !INR_IZR_INZ; simpl; lra).
  rewrite !Rpower_pow by lra. rewrite pow_mult.
  do 2 f_equal.
  unfold Rdiv at 1. rewrite Rpow_mult_distr, pow_inv, Rpow_mult_distr.
  rewrite L_A_cubed by assumption. reflexivity.
Qed.

Lemma Rpower_lt_inv a b c : 0 < c -> 0 < a -> 0 < b -> Rpower a c < Rpower b c -> a < b.
Proof.
  intros Hc Ha Hb H. destruct (Rlt_le_dec a b) as [|Hle]; [ assumption | exfalso ].
  assert (Rpower b c <= Rpower a c) by (apply Rle_Rpower_l; lra). lra.
Qed.

Lemma driver_ratio_cubed :
  (2.4 * 18.8 * 0.05 * 1.5 * 9.81) ^ 3 / (8.2 ^ 2 * 16.2 * 0.001 ^ 3) =
  IZR Truncated.cube_num / IZR Truncated.cube_den.
Proof. unfold Truncated.cube_num, Truncated.cube_den. lra. Qed.

Lemma driver_velocity_pow :
  Rpower (U_m_spec 2.4 18.8 0.05 1.5 9.81 8.2 16.2 0.001) (INR 1500) =
  IZR (10 ^ Z.of_nat 690 * Truncated.cube_num ^ Z.of_nat 163) /
  IZR (Truncated.cube_den ^ Z.of_nat 163).
Proof.
  rewrite U_m_spec_pow by lra. rewrite driver_ratio_cubed.
  rewrite pow_ratio by reflexivity.
  rewrite mult_IZR, <- (pow_IZR 10 690).
  unfold Rdiv. rewrite Rmult_assoc. reflexivity.
Qed.

Lemma thousands_merge (n : Z) :
  (10 ^ Z.of_nat 690 * n ^ Z.of_nat 163 * 1000 ^ Z.of_nat 1500 =
   10 ^ 5190 * n ^ 163)%Z.
Proof.
  change (Z.of_nat 690) with 690%Z. change (Z.of_nat 163) with 163%Z.
  change (Z.of_nat 1500) with 1500%Z.
  change 1000%Z with (10 ^ 3)%Z. rewrite <- Z.pow_mul_r by lia.
  change (3 * 1500)%Z with 4500%Z. change 5190%Z with (690 + 4500)%Z.
  rewrite Z.pow_add_r by lia.
  rewrite <- (Z.mul_assoc (10 ^ 690)), (Z.mul_comm (n ^ 163)), Z.mul_assoc.
  reflexivity.
Qed.

Lemma scour_velocity_bounds :
  40.164 < U_m_spec 2.4 18.8 0.05 1.5 9.81 8.2 16.2 0.001 < 40.165.
Proof.
  set (T := U_m_spec 2.4 18.8 0.05 1.5 9.81 8.2 16.2 0.001).
  assert (HT : 0 < T) by apply Rpower_pos.
  assert (H1500 : 0 < INR 1500) by (apply lt_0_INR; lia).
  pose proof driver_velocity_pow as Hpow. fold T in Hpow.
  split.
  - apply (Rpower_lt_inv _ _ (INR 1500) H1500); [ lra | assumption | ].
    rewrite Hpow, Rpower_pow by lra.
    replace 40.164 with (IZR 40164 / IZR 1000) by lra.
    rewrite pow_ratio by reflexivity.
    apply ratio_lt; [ apply pow_positive; reflexivity .. | ].
    rewrite ?thousands_merge.
    change (Z.of_nat 1500) with 1500%Z. change (Z.of_nat 163) with 163%Z.
    apply TruncatedFacts.powers_below_spec; vm_compute; congruence.
  - apply (Rpower_lt_inv _ _ (INR 1500) H1500); [ assumption | lra | ].
    rewrite Hpow, Rpower_pow by lra.
    replace 40.165 with (IZR 40165 / IZR 1000) by lra.
    rewrite pow_ratio by reflexivity.
    apply ratio_lt; [ apply pow_positive; reflexivity .. | ].
    rewrite ?thousands_merge.
    change (Z.of_nat 1500) with 1500%Z. change (Z.of_nat 163) with 163%Z.
    apply TruncatedFacts.powers_below_spec; vm_compute; congruence.
Qed.

Lemma scour_velocity_line :
  format_f 2 (U_m_spec 2.4 18.8 0.05 1.5 9.81 8.2 16.2 0.001) = "40.16"%string.
Proof.
  pose proof scour_velocity_bounds as HT.
  rewrite (format_f_near 2 _ 4016); [ reflexivity | lra | simpl; lra ].
Qed.

(** *** The statements about the driver *)

Lemma main_eval :
  main = {| stdout := expected_stdout; status := Ok tt |}.
Proof.
  unfold main. rewrite driver_dunes_eval, driver_scour_eval.
  unfold dune_lines, scour_line, format_num, expected_stdout.
  rewrite depth_line, velocity_line, steepness_line, scour_velocity_line. reflexivity.
Qed.

(** C3 does not hold: the run ends normally with four lines on standard
    output, not three. *)
Lemma script_prints_four_lines :
  status main = Ok tt /\ List.length (stdout main) = 4%nat /\
  List.length (stdout main) <> 3%nat.
Proof. rewrite main_eval. repeat split. discriminate. Qed.

(** C3, as the code has it.  A run that finishes has written exactly four
    lines, each a sentence around one number in fixed-point notation: the
    depth with two decimals and the suffix [m], the dune velocity with two
    decimals and [m/s], the steepness with three decimals and no suffix,
    the scour velocity with two decimals and [m/s].  The first three are
    also what the binary64 run prints; the fourth is the exact value of the
    regression, rounded. *)
Theorem script_output :
  main = {| stdout := expected_stdout; status := Ok tt |} /\
  Binary64.driver_dunes_run =
    {| stdout := List.firstn 3 expected_stdout; status := Ok tt |}.
Proof.
  split; [ | vm_compute; reflexivity ].
  unfold main. rewrite driver_dunes_eval, driver_scour_eval.
  unfold dune_lines, scour_line, format_num, expected_stdout.
  rewrite depth_line, velocity_line, steepness_line, scour_velocity_line. reflexivity.
Qed.

(** C6 does not hold in its second figure: the dune velocity of the driver
    is above [8.145], and the script prints it as [8.15], not [8.14]. *)
Lemma driver_velocity_prints_8_15 :
  exists U h r,
    Binary64.driver_dunes = Ok (U, h, r) /\
    Binary64.flt (Binary64.decimal 8145 3) U = true /\
    Binary64.format_f 2 U = "8.15"%string /\
    Binary64.format_f 2 U <> "8.14"%string.
Proof.
  exists (S754_finite false 4587060479315732 (-49)),
         (S754_finite false 5291729562160333 (-48)),
         (S754_finite false 8423072800944172 (-58)).
  split; [ vm_compute; reflexivity | ].
  split; [ vm_compute; reflexivity | ].
  split; [ vm_compute; reflexivity | vm_compute; discriminate ].
Qed.

(** C6, as the code has it.  With the literal constants of the driver the
    dune model yields [h = 18.8], [8.148 < U < 8.149] and
    [0.0292 < H_L_ratio < 0.0293], printed as [18.80], [8.15] and [0.029];
    the scour model, fed [d_w = h], returns the value of the regression
    formula at [d_s = 2.4], [d_w = 18.8], [D_50 = 0.05], [sigma_g = 1.5],
    [g = 9.81], [h_o = 8.2], [w_o = 16.2], [nu = 0.001]; that value lies
    between [40.164] and [40.165] and is the number on the last line,
    printed as [40.16]. *)
Theorem driver_scenario :
  (exists U r,
     driver_dunes = Ok (U, 18.8, r) /\
     8.148 < U < 8.149 /\ 0.0292 < r < 0.0293 /\
     stdout main = dune_lines U 18.8 r ++
       [scour_line (PyFloat (U_m_spec 2.4 18.8 0.05 1.5 9.81 8.2 16.2 0.001))]) /\
  driver_scour 18.8 =
    Ok (PyFloat (U_m_spec 2.4 18.8 0.05 1.5 9.81 8.2 16.2 0.001)) /\
  40.164 < U_m_spec 2.4 18.8 0.05 1.5 9.81 8.2 16.2 0.001 < 40.165 /\
  stdout main = expected_stdout /\
  stdout Binary64.driver_dunes_run =
    [ "Estimated water depth (h) from dunes: 18.80 m"%string;
      "Mean flow velocity (U) from dunes: 8.15 m/s"%string;
      "Dune steepness (H/L): 0.029"%string ].
Proof.
  split; [ | split; [ exact driver_scour_eval | ] ].
  2: { split; [ exact scour_velocity_bounds | ].
       split; [ rewrite main_eval; reflexivity | vm_compute; reflexivity ]. }
  exists (0.6 * sqrt (9.81 * 18.8)), (5.494 / 188).
  split; [ exact driver_dunes_eval | ].
  split; [ exact U_dune_bounds | ].
  split; [ lra | ].
  unfold main. rewrite driver_dunes_eval, driver_scour_eval. reflexivity.
Qed.

End ExactFacts.

(** * Further behaviour of the dune model *)

Module Binary64Behaviour.
Import Binary64 Binary64Facts Behaviour.

Local Open Scope Z_scope.
Local Open Scope py_scope.

Lemma fsqrt_sign_clear x : sign_clear x = true -> sign_clear (fsqrt x) = true.
Proof.
  destruct x as [[]|[]| |[] mx ex]; simpl; intros Hx; try reflexivity; try discriminate.
  unfold fsqrt, SFsqrt.
  destruct (SFsqrt_core_binary prec emax (Z.pos mx) ex) as [[mz ez] lz].
  apply round_aux_sign_clear.
Qed.

Lemma sign_clear_not_negative x : sign_clear x = true -> flt x zero = false.
Proof. destruct x as [[]|[]| |[] m e]; simpl; intros H; try reflexivity; discriminate. Qed.

(** X6.  The two faults and nothing else: for all doubles, NaNs and
    infinities included, the call raises [ZeroDivisionError] when [L] is a
    zero of either sign, [ValueError] when the rounded product
    [g * (L / 10)] is below zero, and returns the reference triple in every
    other case.  The zero test on [L] comes last in the code but wins,
    because the square root of a zero product never fails. *)
Theorem dunes_outcome L H D_50 Fr g :
  calculate_velocity_from_dunes L H D_50 Fr g =
  if feq L zero then Raise ZeroDivisionError
  else if flt (fmul g (fdiv L ten)) zero then Raise ValueError
  else Ok (dunes_reference L H Fr g).
Proof.
  destruct (feq L zero) eqn:Hz.
  - unfold calculate_velocity_from_dunes, truediv.
    rewrite feq_ten_zero. cbn [bind].
    destruct (fdiv_ten_of_zero L Hz) as [s ->].
    destruct (sqrt_of_scaled_zero g s) as [r ->]. cbn [bind].
    rewrite Hz. reflexivity.
  - unfold calculate_velocity_from_dunes, dunes_reference, truediv.
    rewrite feq_ten_zero. cbn [bind]. rewrite math_sqrt_spec.
    destruct (flt (fmul g (fdiv L ten)) zero); cbn [bind]; [ reflexivity | ].
    rewrite Hz. reflexivity.
Qed.

(** X7.  No result is below zero: for [L > 0], [Fr > 0], [g > 0] and a
    dune height that is not negative, none of the three returned numbers
    compares below zero, whatever rounding, underflow or overflow did on
    the way. *)
Theorem dunes_results_not_negative L H D_50 Fr g :
  flt zero L = true -> flt zero Fr = true -> flt zero g = true ->
  sign_clear H = true ->
  exists U h r,
    calculate_velocity_from_dunes L H D_50 Fr g = Ok (U, h, r) /\
    flt U zero = false /\ flt h zero = false /\ flt r zero = false.
Proof.
  intros HL HFr Hg HH.
  exists (fmul Fr (fsqrt (fmul g (fdiv L ten)))), (fdiv L ten), (fdiv H L).
  apply positive_sign_clear in HFr.
  pose proof (positive_sign_clear L HL) as HL'.
  pose proof (positive_sign_clear g Hg) as Hg'.
  assert (Hh : sign_clear (fdiv L ten) = true)
    by (apply fdiv_sign_clear; [ assumption | reflexivity ]).
  split; [ exact (dunes_positive L H D_50 Fr g HL Hg) | ].
  split; [ | split ]; apply sign_clear_not_negative.
  - apply fmul_sign_clear; [ assumption | ].
    apply fsqrt_sign_clear, fmul_sign_clear; assumption.
  - assumption.
  - apply fdiv_sign_clear; assumption.
Qed.

Lemma dunes_results_not_negative_witness :
  exists U h r,
    calculate_velocity_from_dunes (of_int 188) H_driver D_50_driver Fr_driver g_default =
      Ok (U, h, r) /\
    flt U zero = false /\ flt h zero = false /\ flt r zero = false.
Proof.
  apply (dunes_results_not_negative (of_int 188) H_driver D_50_driver Fr_driver g_default);
    reflexivity.
Defined.

(** X8.  A NaN wavelength is not rejected: whatever the other arguments
    are, the call returns three NaNs and raises nothing. *)
Theorem dunes_nan_length_returns_nan H D_50 Fr g :
  calculate_velocity_from_dunes S754_nan H D_50 Fr g =
  Ok (S754_nan, S754_nan, S754_nan).
Proof.
  unfold calculate_velocity_from_dunes, truediv.
  rewrite feq_ten_zero. cbn [bind].
  change (fdiv S754_nan ten) with S754_nan.
  assert (Hg : fmul g S754_nan = S754_nan) by (destruct g as [[]|[]| |[] m e]; reflexivity).
  rewrite Hg. change (math_sqrt S754_nan) with (Ok S754_nan). cbn [bind].
  assert (HFr : fmul Fr S754_nan = S754_nan)
    by (destruct Fr as [[]|[]| |[] m e]; reflexivity).
  rewrite HFr.
  assert (HH : fdiv H S754_nan = S754_nan) by (destruct H as [[]|[]| |[] m e]; reflexivity).
  change (feq S754_nan zero) with false. cbn iota. rewrite HH. reflexivity.
Qed.

(** *** Two negative arguments *)

Lemma round_aux_sign_set m e l :
  sign_set (binary_round_aux prec emax true m e l) = true.
Proof.
  destruct (round_aux_cases true m e l) as [H|[H|[H|(m' & e' & H)]]];
    rewrite H; reflexivity.
Qed.

Lemma negative_sign_set x : flt x zero = true -> sign_set x = true.
Proof. destruct x as [[]|[]| |[] m e]; simpl; intros H; try reflexivity; discriminate. Qed.

Lemma negative_not_zero x : flt x zero = true -> feq x zero = false.
Proof. destruct x as [[]|[]| |[] m e]; simpl; intros H; try reflexivity; discriminate. Qed.

Lemma sign_set_not_positive x : sign_set x = true -> flt zero x = false.
Proof. destruct x as [[]|[]| |[] m e]; simpl; intros H; try reflexivity; discriminate. Qed.

Lemma fdiv_sign_set x y :
  sign_set x = true -> sign_clear y = true -> sign_set (fdiv x y) = true.
Proof.
  destruct x as [[]|[]| |[] mx ex]; destruct y as [[]|[]| |[] my ey];
    simpl; intros Hx Hy; try reflexivity; try discriminate.
  unfold fdiv, SFdiv.
  destruct (SFdiv_core_binary prec emax (Z.pos mx) ex (Z.pos my) ey) as [[mz ez] lz].
  apply round_aux_sign_set.
Qed.

Lemma fmul_sign_set_both x y :
  sign_set x = true -> sign_set y = true -> sign_clear (fmul x y) = true.
Proof.
  destruct x as [[]|[]| |[] mx ex]; destruct y as [[]|[]| |[] my ey];
    simpl; intros Hx Hy; try reflexivity; try discriminate.
  apply round_aux_sign_clear.
Qed.

(** X9.  A negative wavelength is not rejected when gravity is negative
    too: the two signs cancel under the square root, the call returns, and
    the depth it returns is not above zero. *)
Theorem negative_length_and_gravity_return L H D_50 Fr g :
  flt L zero = true -> flt g zero = true ->
  calculate_velocity_from_dunes L H D_50 Fr g = Ok (dunes_reference L H Fr g) /\
  flt zero (fdiv L ten) = false.
Proof.
  intros HL Hg.
  assert (Hh : sign_set (fdiv L ten) = true)
    by (apply fdiv_sign_set; [ apply negative_sign_set; assumption | reflexivity ]).
  split; [ | apply sign_set_not_positive; assumption ].
  unfold calculate_velocity_from_dunes, dunes_reference, truediv.
  rewrite feq_ten_zero. cbn [bind].
  rewrite math_sqrt_sign_clear
    by (apply fmul_sign_set_both; [ apply negative_sign_set | ]; assumption).
  cbn [bind]. rewrite (negative_not_zero L HL). reflexivity.
Qed.

Lemma negative_length_and_gravity_return_witness :
  calculate_velocity_from_dunes (of_int (-188)) H_driver D_50_driver Fr_driver
    (of_int (-10)) =
  Ok (dunes_reference (of_int (-188)) H_driver Fr_driver (of_int (-10))).
Proof.
  exact (proj1 (negative_length_and_gravity_return
                  (of_int (-188)) H_driver D_50_driver Fr_driver (of_int (-10))
                  eq_refl eq_refl)).
Defined.

End Binary64Behaviour.


(** * The scour model in binary64 *)

Module Binary64ScourFacts.
Import Binary64 Binary64Facts Binary64Scour.

Local Open Scope Z_scope.
Local Open Scope py_scope.

(** *** The steps of the function *)

Lemma calculate_mean_velocity_steps m d_s d_w D_50 sigma_g g h_o w_o nu :
  calculate_mean_velocity m d_s d_w D_50 sigma_g g h_o w_o nu =
  (a <- float_pow m h_o two_thirds ;;
   b <- float_pow m w_o one_third ;;
   q <- num_truediv (numerator d_s d_w D_50 sigma_g g)
                    (num_mul (num_mul a b) (PyFloat nu)) ;;
   l <- math_log10 m q ;;
   float_pow m ten (fadd (decimal 46 2) (fmul (decimal 326 3) l))).
Proof. reflexivity. Qed.

(** A positive base never leaves the floats, and raises only when the
    library reports an error. *)
Lemma float_pow_positive m x y :
  flt zero x = true -> pow_quiet m x y = true ->
  float_pow m x y = Ok (PyFloat (pow_value m x y)).
Proof.
  intros Hx Hq.
  assert (H : exists v, float_pow m x y = Ok (PyFloat v)).
  { unfold float_pow.
    destruct (feq y zero); [ eauto | ].
    destruct (is_nan x); [ eauto | ].
    destruct (is_nan y); [ eauto | ].
    destruct (is_inf y).
    { destruct (feq (fabs x) one); [ eauto | ].
      destruct (Bool.eqb (flt zero y) (flt one (fabs x))); eauto. }
    destruct (is_inf x).
    { destruct (flt zero y); eauto. }
    assert (Hz : feq x zero = false) by (apply positive_not_zero; assumption).
    assert (Hn : flt x zero = false).
    { destruct x as [[]|[]| |[] mx ex]; try reflexivity; discriminate. }
    rewrite Hz, Hn. cbn [andb].
    destruct (feq x one); [ eauto | ].
    unfold pow_quiet in Hq.
    destruct (adjust_erange1 (fst (c_pow m x y)) (snd (c_pow m x y)));
      try discriminate Hq.
    eauto. }
  destruct H as [v Hv]. unfold pow_value. rewrite Hv. reflexivity.
Qed.

(** A finite quotient had a divisor that is not zero. *)
Lemma fdiv_finite_divisor x y : is_finite (fdiv x y) = true -> feq y zero = false.
Proof.
  destruct y as [sy|[]| |[] my ey]; try reflexivity.
  destruct x as [sx|sx| |sx mx ex]; intros H; discriminate H.
Qed.

Lemma truediv_divisor x y : feq y zero = false -> truediv x y = Ok (fdiv x y).
Proof. intros H. unfold truediv. rewrite H. reflexivity. Qed.

(** [math.log10] at a finite positive argument is the library's answer. *)
Lemma math_log10_positive m x :
  flt zero x = true -> is_finite x = true -> log10_quiet m x = true ->
  math_log10 m (PyFloat x) = Ok (fst (c_log10 m x)).
Proof.
  intros Hp Hf Hq. unfold math_log10, m_log10. rewrite Hf, Hp.
  unfold log10_quiet in Hq. apply andb_prop in Hq. destruct Hq as [Hr He].
  unfold math_1. rewrite Hr.
  destruct (fst (c_log10 m x)) as [s|s| |s mr er]; try discriminate Hr;
    cbn [is_nan is_inf andb];
    destruct (is_error _ (snd (c_log10 m x))); try discriminate He; reflexivity.
Qed.

(** At or below zero the logarithm is a domain error, with or without the
    library. *)
Lemma math_log10_nonpositive m x :
  fle x zero = true -> math_log10 m (PyFloat x) = Raise ValueError.
Proof.
  destruct x as [[]|[]| |[] mx ex]; intros H; try discriminate H; reflexivity.
Qed.

Lemma math_log10_nan m : math_log10 m (PyFloat S754_nan) = Ok S754_nan.
Proof. reflexivity. Qed.

Lemma float_pow_ten_nan m : float_pow m ten S754_nan = Ok (PyFloat S754_nan).
Proof. reflexivity. Qed.

(** The last step, [10 ** log_Um], always gives a float; it is the
    library's answer unless the exponent is zero, infinite or a NaN. *)
Lemma float_pow_ten m y v :
  float_pow m ten y = Ok v ->
  exists u, v = PyFloat u /\
    (u = one \/ u = S754_nan \/ u = S754_infinity false \/ u = zero \/
     u = fst (c_pow m ten y)).
Proof.
  unfold float_pow.
  destruct (feq y zero); [ intros [= <-]; eauto 8 | ].
  change (is_nan ten) with false. cbn iota.
  destruct (is_nan y) eqn:Hn.
  { change (feq ten one) with false. cbn iota. intros [= <-].
    destruct y; try discriminate Hn. eauto 8. }
  destruct (is_inf y) eqn:Hi.
  { change (feq (fabs ten) one) with false. cbn iota.
    destruct (Bool.eqb (flt zero y) (flt one (fabs ten))); intros [= <-].
    - destruct y as [|[]| |]; try discriminate Hi; cbn; eauto 8.
    - eauto 8. }
  change (is_inf ten) with false. change (feq ten zero) with false.
  change (flt ten zero) with false. cbn [andb]. cbn iota.
  change (feq ten one) with false. cbn iota.
  destruct (adjust_erange1 _ _); intros [= <-]. eauto 8.
Qed.

Lemma num_truediv_float x a b nu :
  feq (fmul (fmul a b) nu) zero = false ->
  num_truediv x (num_mul (num_mul (PyFloat a) (PyFloat b)) (PyFloat nu)) =
  Ok (PyFloat (fdiv x (fmul (fmul a b) nu))).
Proof.
  intros H. cbn [num_mul num_truediv]. rewrite (truediv_divisor _ _ H). reflexivity.
Qed.

(** With positive obstacle dimensions and a quiet library, the function is
    the division, the logarithm and the last power. *)
Lemma calculate_mean_velocity_positive_obstacle m d_s d_w D_50 sigma_g g h_o w_o nu :
  flt zero h_o = true -> flt zero w_o = true ->
  pow_quiet m h_o two_thirds = true -> pow_quiet m w_o one_third = true ->
  calculate_mean_velocity m d_s d_w D_50 sigma_g g h_o w_o nu =
  (q <- truediv (numerator d_s d_w D_50 sigma_g g) (denominator m h_o w_o nu) ;;
   l <- math_log10 m (PyFloat q) ;;
   float_pow m ten (fadd (decimal 46 2) (fmul (decimal 326 3) l))).
Proof.
  intros Hh Hw Qh Qw. rewrite calculate_mean_velocity_steps.
  rewrite (float_pow_positive m h_o two_thirds Hh Qh). cbn [bind].
  rewrite (float_pow_positive m w_o one_third Hw Qw). cbn [bind].
  cbn [num_mul num_truediv]. fold (denominator m h_o w_o nu).
  destruct (truediv _ _); reflexivity.
Qed.

(** Away from the special cases of [float_pow] and [m_log10], the values
    in the reference formula are the library's own. *)
Lemma pow_value_library m x y :
  flt zero x = true -> is_finite x = true -> feq x one = false ->
  is_finite y = true -> feq y zero = false ->
  pow_quiet m x y = true ->
  pow_value m x y = fst (c_pow m x y).
Proof.
  intros Hx Hfx H1 Hfy Hy Hq. unfold pow_value, float_pow. rewrite Hy.
  destruct x as [sx|sx| |[] mx ex]; try discriminate Hfx; try discriminate Hx.
  destruct y as [sy|sy| |sy my ey]; try discriminate Hfy.
  { destruct sy; discriminate Hy. }
  cbn [is_nan is_inf]. cbn iota.
  change (feq (S754_finite false mx ex) zero) with false.
  change (flt (S754_finite false mx ex) zero) with false.
  cbn [andb]. cbn iota. rewrite H1.
  unfold pow_quiet in Hq.
  destruct (adjust_erange1 _ _); try discriminate Hq. reflexivity.
Qed.

Lemma log10_value_library m x :
  flt zero x = true -> is_finite x = true -> log10_quiet m x = true ->
  log10_value m x = fst (c_log10 m x).
Proof.
  intros Hp Hf Hq. unfold log10_value.
  rewrite (math_log10_positive m x Hp Hf Hq). reflexivity.
Qed.

(** The driver's call, with the library's values at its four calls:
    the velocity and the digits it prints. *)
Lemma driver_scour_binary64 :
  calculate_mean_velocity driver_libm d_s_driver h_dune_driver D_50_driver
    sigma_g_driver g_driver h_o_driver w_o_driver nu_driver =
    Ok (PyFloat (S754_finite false 5652648918801703 (-47))) /\
  format_f 2 (S754_finite false 5652648918801703 (-47)) = "40.16"%string.
Proof. split; vm_compute; reflexivity. Qed.

(** *** The statements about the scour model *)

(** C2 does not hold for every strictly positive argument list: with
    [d_s = d_w = 2^-600] the product of the two underflows to zero, the
    argument of the logarithm is [0.0], and the call raises [ValueError],
    whatever the C library is.  The obstacle and the viscosity are [1.0],
    for which [**] does not consult the library. *)
Lemma positive_arguments_underflow :
  (flt zero small = true /\ valid_binary prec emax small = true /\
   flt zero D_50_driver = true /\ flt zero sigma_g_driver = true /\
   flt zero g_driver = true /\ flt zero one = true) /\
  (forall m, calculate_mean_velocity m small small D_50_driver sigma_g_driver
               g_driver one one one = Raise ValueError).
Proof.
  split; [ repeat split | ].
  intros m. vm_compute. reflexivity.
Qed.

(** C2, as the code has it.  For positive obstacle dimensions, when the
    binary64 quotient [q = (d_s*d_w*D_50*sigma_g*g) / (L_A*nu)] is a
    positive finite double and the C library reports no error at its four
    calls, the call returns [10 ** (0.46 + 0.326 * log10 q)] with
    [L_A = h_o ** (2/3) * w_o ** (1/3)], every operation in binary64. *)
Theorem mean_velocity_binary64_formula m d_s d_w D_50 sigma_g g h_o w_o nu :
  flt zero h_o = true -> flt zero w_o = true ->
  pow_quiet m h_o two_thirds = true -> pow_quiet m w_o one_third = true ->
  let L_A := fmul (pow_value m h_o two_thirds) (pow_value m w_o one_third) in
  let q := fdiv (fmul (fmul (fmul (fmul d_s d_w) D_50) sigma_g) g) (fmul L_A nu) in
  let log_Um := fadd (decimal 46 2) (fmul (decimal 326 3) (log10_value m q)) in
  flt zero q = true -> is_finite q = true ->
  log10_quiet m q = true -> pow_quiet m ten log_Um = true ->
  calculate_mean_velocity m d_s d_w D_50 sigma_g g h_o w_o nu =
  Ok (PyFloat (pow_value m ten log_Um)).
Proof.
  intros Hh Hw Qh Qw L_A q log_Um Hq Hf Ql Qu.
  rewrite (calculate_mean_velocity_positive_obstacle m d_s d_w D_50 sigma_g g h_o w_o nu
             Hh Hw Qh Qw).
  change (denominator m h_o w_o nu) with (fmul L_A nu).
  change (numerator d_s d_w D_50 sigma_g g)
    with (fmul (fmul (fmul (fmul d_s d_w) D_50) sigma_g) g).
  rewrite truediv_divisor by (apply (fdiv_finite_divisor _ _ Hf)).
  cbn [bind]. fold q.
  assert (Hl : math_log10 m (PyFloat q) = Ok (log10_value m q)).
  { unfold log10_value. rewrite (math_log10_positive m q Hq Hf Ql). reflexivity. }
  rewrite Hl. cbn [bind]. fold log_Um.
  apply float_pow_positive; [ reflexivity | assumption ].
Qed.

Lemma mean_velocity_binary64_formula_witness :
  flt zero h_o_driver = true /\ flt zero w_o_driver = true /\
  pow_quiet driver_libm h_o_driver two_thirds = true /\
  pow_quiet driver_libm w_o_driver one_third = true /\
  fdiv (fmul (fmul (fmul (fmul d_s_driver h_dune_driver) D_50_driver) sigma_g_driver)
             g_driver)
       (fmul (fmul (pow_value driver_libm h_o_driver two_thirds)
                   (pow_value driver_libm w_o_driver one_third)) nu_driver) =
    S754_finite false 7094932655612117 (-41) /\
  log10_quiet driver_libm (S754_finite false 7094932655612117 (-41)) = true /\
  fadd (decimal 46 2)
       (fmul (decimal 326 3)
             (log10_value driver_libm (S754_finite false 7094932655612117 (-41)))) =
    S754_finite false 7223063208280348 (-52) /\
  pow_quiet driver_libm ten (S754_finite false 7223063208280348 (-52)) = true /\
  calculate_mean_velocity driver_libm d_s_driver h_dune_driver D_50_driver
    sigma_g_driver g_driver h_o_driver w_o_driver nu_driver =
  Ok (PyFloat (S754_finite false 5652648918801703 (-47))).
Proof.
  split; [ reflexivity | ]. split; [ reflexivity | ].
  split; [ vm_compute; reflexivity | ]. split; [ vm_compute; reflexivity | ].
  split; [ vm_compute; reflexivity | ]. split; [ vm_compute; reflexivity | ].
  split; [ vm_compute; reflexivity | ]. split; [ vm_compute; reflexivity | ].
  rewrite (mean_velocity_binary64_formula driver_libm d_s_driver h_dune_driver
             D_50_driver sigma_g_driver g_driver h_o_driver w_o_driver nu_driver);
    vm_compute; reflexivity.
Defined.

(** C4 does not hold for every argument list whose product is zero: with
    [d_s = d_w = 2^600] and a grain size of zero the product of the first
    two overflows to infinity, infinity times zero is a NaN, and the call
    returns that NaN where the specification has it raise. *)
Lemma zero_grain_size_returns_nan :
  (is_finite large = true /\ valid_binary prec emax large = true /\
   feq zero zero = true) /\
  (forall m, calculate_mean_velocity m large large zero sigma_g_driver g_driver
               one one one = Ok (PyFloat S754_nan)).
Proof.
  split; [ repeat split | ].
  intros m. vm_compute. reflexivity.
Qed.

(** C4, as the code has it.  With positive obstacle dimensions and a
    quiet library, let [q = (d_s*d_w*D_50*sigma_g*g) / (L_A*nu)] in
    binary64, with a denominator that is not zero.  A [q] that is zero or
    negative, [-inf] included, raises [ValueError] and nothing is
    returned; a [q] that is a NaN is returned as a NaN.  A zero
    denominator raises [ZeroDivisionError] before any logarithm. *)
Theorem nonpositive_log_argument_raises m d_s d_w D_50 sigma_g g h_o w_o nu :
  flt zero h_o = true -> flt zero w_o = true ->
  pow_quiet m h_o two_thirds = true -> pow_quiet m w_o one_third = true ->
  let D := fmul (fmul (pow_value m h_o two_thirds) (pow_value m w_o one_third)) nu in
  let q := fdiv (fmul (fmul (fmul (fmul d_s d_w) D_50) sigma_g) g) D in
  (feq D zero = false -> fle q zero = true ->
   calculate_mean_velocity m d_s d_w D_50 sigma_g g h_o w_o nu = Raise ValueError) /\
  (feq D zero = false -> is_nan q = true ->
   calculate_mean_velocity m d_s d_w D_50 sigma_g g h_o w_o nu = Ok (PyFloat S754_nan)) /\
  (feq D zero = true ->
   calculate_mean_velocity m d_s d_w D_50 sigma_g g h_o w_o nu = Raise ZeroDivisionError).
Proof.
  intros Hh Hw Qh Qw D q.
  rewrite (calculate_mean_velocity_positive_obstacle m d_s d_w D_50 sigma_g g h_o w_o nu
             Hh Hw Qh Qw).
  change (denominator m h_o w_o nu) with D.
  change (numerator d_s d_w D_50 sigma_g g)
    with (fmul (fmul (fmul (fmul d_s d_w) D_50) sigma_g) g).
  unfold truediv.
  split; [ | split ].
  - intros HD Hle. rewrite HD. cbn [bind]. fold q.
    rewrite (math_log10_nonpositive m q Hle). reflexivity.
  - intros HD Hn. rewrite HD. cbn [bind]. fold q.
    destruct q; try discriminate Hn. reflexivity.
  - intros HD. rewrite HD. reflexivity.
Qed.

Lemma nonpositive_log_argument_raises_witness :
  flt zero h_o_driver = true /\ flt zero w_o_driver = true /\
  pow_quiet driver_libm h_o_driver two_thirds = true /\
  pow_quiet driver_libm w_o_driver one_third = true /\
  feq (fmul (fmul (pow_value driver_libm h_o_driver two_thirds)
                  (pow_value driver_libm w_o_driver one_third)) nu_driver) zero = false /\
  fle (fdiv (fmul (fmul (fmul (fmul zero h_dune_driver) D_50_driver) sigma_g_driver)
                  g_driver)
            (fmul (fmul (pow_value driver_libm h_o_driver two_thirds)
                        (pow_value driver_libm w_o_driver one_third)) nu_driver))
      zero = true /\
  calculate_mean_velocity driver_libm zero h_dune_driver D_50_driver sigma_g_driver
    g_driver h_o_driver w_o_driver nu_driver = Raise ValueError.
Proof.
  split; [ reflexivity | ]. split; [ reflexivity | ].
  split; [ vm_compute; reflexivity | ]. split; [ vm_compute; reflexivity | ].
  split; [ vm_compute; reflexivity | ]. split; [ vm_compute; reflexivity | ].
  apply (proj1 (nonpositive_log_argument_raises driver_libm zero h_dune_driver
                  D_50_driver sigma_g_driver g_driver h_o_driver w_o_driver nu_driver
                  eq_refl eq_refl eq_refl eq_refl));
    vm_compute; reflexivity.
Defined.

(** C9 does not hold: the call can return a NaN, which is not a strictly
    positive number.  With [d_s = d_w = 2^600] and no gravity the product
    is infinity times zero. *)
Lemma zero_gravity_returns_nan :
  (is_finite large = true /\ valid_binary prec emax large = true /\
   flt zero S754_nan = false) /\
  (forall m, calculate_mean_velocity m large large D_50_driver sigma_g_driver zero
               one one one = Ok (PyFloat S754_nan)).
Proof.
  split; [ repeat split | ].
  intros m. vm_compute. reflexivity.
Qed.

(** C9, as the code has it.  Whatever the call returns is a float, never
    a complex number, and it does not compare below zero, provided the C
    library's [pow] gives no negative power of ten: the value is positive,
    zero, infinite or a NaN. *)
Theorem returned_velocity_not_negative m d_s d_w D_50 sigma_g g h_o w_o nu v :
  (forall y, sign_clear (fst (c_pow m ten y)) = true) ->
  calculate_mean_velocity m d_s d_w D_50 sigma_g g h_o w_o nu = Ok v ->
  exists u, v = PyFloat u /\ flt u zero = false.
Proof.
  intros Hpow H. rewrite calculate_mean_velocity_steps in H.
  apply ExactFacts.bind_Ok in H. destruct H as (a & _ & H).
  apply ExactFacts.bind_Ok in H. destruct H as (b & _ & H).
  apply ExactFacts.bind_Ok in H. destruct H as (q & _ & H).
  apply ExactFacts.bind_Ok in H. destruct H as (l & _ & H).
  destruct (float_pow_ten m _ v H) as (u & -> & Hu).
  exists u. split; [ reflexivity | ].
  destruct Hu as [->|[->|[->|[->| ->]]]]; try reflexivity.
  specialize (Hpow (fadd (decimal 46 2) (fmul (decimal 326 3) l))).
  destruct (fst (c_pow m ten _)) as [[]|[]| |[] mu eu];
    try reflexivity; discriminate Hpow.
Qed.

Lemma returned_velocity_not_negative_witness :
  (forall y, sign_clear (fst (c_pow driver_libm ten y)) = true) /\
  calculate_mean_velocity driver_libm d_s_driver h_dune_driver D_50_driver
    sigma_g_driver g_driver h_o_driver w_o_driver nu_driver =
    Ok (PyFloat (S754_finite false 5652648918801703 (-47))) /\
  exists u, PyFloat (S754_finite false 5652648918801703 (-47)) = PyFloat u /\
            flt u zero = false.
Proof.
  assert (Hpow : forall y, sign_clear (fst (c_pow driver_libm ten y)) = true).
  { intros y. cbn [c_pow driver_libm].
    change (feq ten h_o_driver) with false. change (feq ten w_o_driver) with false.
    change (feq ten ten) with true. cbn [andb].
    destruct (feq y _); reflexivity. }
  split; [ exact Hpow | ].
  split; [ vm_compute; reflexivity | ].
  apply (returned_velocity_not_negative driver_libm d_s_driver h_dune_driver
           D_50_driver sigma_g_driver g_driver h_o_driver w_o_driver nu_driver _ Hpow).
  vm_compute. reflexivity.
Defined.




(** *** Further behaviour *)







Lemma fmul_finite_zero x y :
  is_finite x = true -> is_finite y = true ->
  feq x zero = true \/ feq y zero = true -> feq (fmul x y) zero = true.
Proof.
  destruct x as [sx|sx| |sx mx ex]; destruct y as [sy|sy| |sy my ey];
    intros Hx Hy H; try discriminate Hx; try discriminate Hy;
    try (destruct sx, sy; reflexivity).
  destruct H as [H|H]; destruct sx, sy; discriminate H.
Qed.

(** X2.  When the obstacle length [L_A = h_o ** (2/3) * w_o ** (1/3)] is
    a finite float and the viscosity is finite, a zero [L_A] or a zero
    viscosity makes the denominator zero and the call raises
    [ZeroDivisionError], whatever the numerator is.  A zero obstacle
    dimension gives a zero [L_A]: [0.0 ** (2/3)] is [0.0]. *)
Theorem zero_denominator_divides_by_zero m d_s d_w D_50 sigma_g g h_o w_o nu a b :
  float_pow m h_o two_thirds = Ok (PyFloat a) ->
  float_pow m w_o one_third = Ok (PyFloat b) ->
  is_finite (fmul a b) = true -> is_finite nu = true ->
  feq (fmul a b) zero = true \/ feq nu zero = true ->
  calculate_mean_velocity m d_s d_w D_50 sigma_g g h_o w_o nu = Raise ZeroDivisionError.
Proof.
  intros Ha Hb FL Fn Hz. rewrite calculate_mean_velocity_steps.
  rewrite Ha. cbn [bind]. rewrite Hb. cbn [bind num_mul num_truediv].
  unfold truediv. rewrite (fmul_finite_zero (fmul a b) nu FL Fn Hz). reflexivity.
Qed.

Lemma zero_denominator_divides_by_zero_witness :
  (forall m, float_pow m zero two_thirds = Ok (PyFloat zero)) /\
  (forall m, float_pow m one one_third = Ok (PyFloat one)) /\
  is_finite (fmul zero one) = true /\ is_finite nu_driver = true /\
  feq (fmul zero one) zero = true /\
  forall m,
    calculate_mean_velocity m d_s_driver h_dune_driver D_50_driver sigma_g_driver
      g_driver zero one nu_driver = Raise ZeroDivisionError.
Proof.
  split; [ reflexivity | ]. split; [ reflexivity | ].
  split; [ reflexivity | ]. split; [ reflexivity | ]. split; [ reflexivity | ].
  intros m.
  apply (zero_denominator_divides_by_zero m d_s_driver h_dune_driver D_50_driver
           sigma_g_driver g_driver zero one nu_driver zero one);
    try reflexivity.
  left. reflexivity.
Defined.

End Binary64ScourFacts.
